(** * X-drive base on a PCA9685

    A shallow embedding of [test.py] and [drivebase.py].

    The two Python modules are embedded as follows.

    - Python [int] is [Z].  Python [float] is [pyfloat]: a finite value is an
      exact rational, and the two infinities and NaN are separate values
      with the comparison and arithmetic rules Python gives them.  The
      conversion of an int to a float is the one of CPython: the nearest
      binary64 value, ties to even, and [OverflowError] when that is out
      of range.  The four operations on finite floats are exact: the
      rounding binary64 applies after each of them, and the overflow of a
      finite result, are outside this model.  The duty and the mix are
      therefore stated for integer commands, which binary64 holds and
      computes exactly, and their numbers are computed a second time on
      binary64 values ([Binary64]).  The conversion [int(x)] truncates
      toward zero as in Python.
    - The SMBus handle is a state: the replies the wire will give to the
      coming transactions, and the log of what was attempted so far.  A
      transaction that is not acknowledged raises [OSError], as smbus2 does.
    - A function with side effects is a computation in the monad [M] (state
      and exceptions); [try ... except Exception] is [try_except].
    - The module constant [PCA_ADDR] (found once, at import) is the
      parameter [Wiring] of every function of [test.py] that uses it.
    - [drivebase.py] reaches the helpers of [test.py] through
      [_get_lowlevel], at each call.  Its parameter [Lowlevel] says
      whether they are there: loaded with their [Wiring], or impossible
      to import, which is an [ImportError]. *)

From Stdlib Require Import ZArith QArith Qround Qabs Lia Lqa List Floats Uint63.
From stdpp Require Import base gmap strings.
Import ListNotations.
Open Scope Z_scope.

(** ** Python numbers *)

Inductive pyfloat : Type :=
| FNum (q : Q)
| FInf (negative : bool)
| FNaN.

(** What the drive functions receive: an [int], a [float], or something
    that is not a number ([None]). *)
Inductive pyobj : Type :=
| PyInt (z : Z)
| PyFloat (f : pyfloat)
| PyNone.

Inductive exn : Type :=
| OSError
| ValueError
| TypeError
| OverflowError
| ZeroDivisionError
| RuntimeError
| ImportError.

Inductive result (A : Type) : Type :=
| Ok (a : A)
| Raise (e : exn).

Arguments Ok {A} a.
Arguments Raise {A} e.

Module Py.

(** Evaluation of a compound expression stops at the first error. *)
Definition and_then {A B} (r : result A) (k : A -> result B) : result B :=
  match r with
  | Ok a => k a
  | Raise e => Raise e
  end.

(** The float whose value is the integer [z]: what an int is compared
    as, and what it converts to when binary64 holds it exactly. *)
Definition of_int (z : Z) : pyfloat := FNum (inject_Z z).

(** The integer nearest to [z] among those binary64 can hold: [z] itself
    up to 53 significant bits, and beyond that [z] rounded to 53
    significant bits, a tie going to the even one. *)
Definition nearest_float (z : Z) : Z :=
  let a := Z.abs z in
  let shift := Z.log2 a - 52 in
  if shift <=? 0 then z
  else
    let q := Z.shiftr a shift in
    let r := Z.land a (Z.ones shift) in
    let half := Z.shiftl 1 (shift - 1) in
    let m := if (half <? r) || ((r =? half) && Z.odd q) then q + 1 else q in
    Z.sgn z * Z.shiftl m shift.

(** The conversion of an int to a float, explicit in [float(z)] and
    implicit when an int meets a float in an operation:
    [OverflowError] when the rounded value does not fit below 2^1024. *)
Definition float_of_int (z : Z) : result pyfloat :=
  let v := nearest_float z in
  if Z.log2 (Z.abs v) <? 1024 then Ok (of_int v) else Raise OverflowError.

(** [float(x)]: [TypeError] on [None]. *)
Definition float (x : pyobj) : result pyfloat :=
  match x with
  | PyInt z => float_of_int z
  | PyFloat f => Ok f
  | PyNone => Raise TypeError
  end.

Definition neg (x : pyfloat) : pyfloat :=
  match x with
  | FNum q => FNum (- q)
  | FInf s => FInf (negb s)
  | FNaN => FNaN
  end.

(** [abs(x)]. *)
Definition abs (x : pyfloat) : pyfloat :=
  match x with
  | FNum q => FNum (Qabs q)
  | FInf _ => FInf false
  | FNaN => FNaN
  end.

Definition Qneg_bool (q : Q) : bool := negb (Qle_bool 0 q).

(** [x * y] on floats: NaN is absorbing, and zero times infinity is NaN.
    Of two finite operands it is the exact product, where binary64 gives
    the nearest value it holds; so for [add], [sub] and [div] below. *)
Definition mul (x y : pyfloat) : pyfloat :=
  match x, y with
  | FNaN, _ | _, FNaN => FNaN
  | FNum a, FNum b => FNum (a * b)
  | FInf s, FNum q | FNum q, FInf s =>
      if Qeq_bool q 0 then FNaN else FInf (xorb s (Qneg_bool q))
  | FInf s, FInf t => FInf (xorb s t)
  end.

(** [x + y] on floats: opposite infinities add up to NaN. *)
Definition add (x y : pyfloat) : pyfloat :=
  match x, y with
  | FNaN, _ | _, FNaN => FNaN
  | FNum a, FNum b => FNum (a + b)
  | FInf s, FNum _ | FNum _, FInf s => FInf s
  | FInf s, FInf t => if Bool.eqb s t then FInf s else FNaN
  end.

(** [x - y] on floats. *)
Definition sub (x y : pyfloat) : pyfloat :=
  match x, y with
  | FNum a, FNum b => FNum (a - b)
  | _, _ => add x (neg y)
  end.

(** [x / y] on floats: Python raises [ZeroDivisionError] on a zero
    divisor, whatever the dividend. *)
Definition div (x y : pyfloat) : result pyfloat :=
  match x, y with
  | _, FNum b =>
      if Qeq_bool b 0 then Raise ZeroDivisionError
      else Ok match x with
              | FNum a => FNum (a / b)
              | FInf s => FInf (xorb s (Qneg_bool b))
              | FNaN => FNaN
              end
  | FNaN, _ | _, FNaN => Ok FNaN
  | FNum a, FInf _ => Ok (FNum 0)
  | FInf _, FInf _ => Ok FNaN
  end.

(** [x <= y]: false as soon as one side is NaN. *)
Definition le (x y : pyfloat) : bool :=
  match x, y with
  | FNaN, _ | _, FNaN => false
  | FNum a, FNum b => Qle_bool a b
  | FInf s, FInf t => implb t s
  | FInf s, FNum _ => s
  | FNum _, FInf t => negb t
  end.

(** [x < y]. *)
Definition lt (x y : pyfloat) : bool :=
  match x, y with
  | FNaN, _ | _, FNaN => false
  | FNum a, FNum b => negb (Qle_bool b a)
  | FInf s, FInf t => s && negb t
  | FInf s, FNum _ => s
  | FNum _, FInf t => negb t
  end.

(** [x >= y]. *)
Definition ge (x y : pyfloat) : bool := le y x.

(** The integer part of a rational, toward zero. *)
Definition Qtrunc (q : Q) : Z :=
  if Qle_bool 0 q then Qfloor q else Qceiling q.

(** [int(x)] on a float: truncation; [OverflowError] on an infinity and
    [ValueError] on NaN. *)
Definition int (x : pyfloat) : result Z :=
  match x with
  | FNum q => Ok (Qtrunc q)
  | FInf _ => Raise OverflowError
  | FNaN => Raise ValueError
  end.

(** The two-argument [min(a, b)]: [b] when [b < a], else [a] (so a NaN
    in second place is never chosen). *)
Definition min (a b : pyfloat) : pyfloat := if lt b a then b else a.

(** The two-argument [max(a, b)]: [b] when [b > a], else [a]. *)
Definition max (a b : pyfloat) : pyfloat := if lt a b then b else a.

(** [x - y] and [x + y] on objects: int arithmetic stays in the ints,
    whatever their size; a float operand makes the result a float, the
    int operand being converted first; [None] is a [TypeError]. *)
Definition obj_sub (x y : pyobj) : result pyobj :=
  match x, y with
  | PyInt a, PyInt b => Ok (PyInt (a - b))
  | PyInt a, PyFloat g =>
      and_then (float_of_int a) (fun f => Ok (PyFloat (sub f g)))
  | PyFloat f, PyInt b =>
      and_then (float_of_int b) (fun g => Ok (PyFloat (sub f g)))
  | PyFloat f, PyFloat g => Ok (PyFloat (sub f g))
  | _, _ => Raise TypeError
  end.

Definition obj_add (x y : pyobj) : result pyobj :=
  match x, y with
  | PyInt a, PyInt b => Ok (PyInt (a + b))
  | PyInt a, PyFloat g =>
      and_then (float_of_int a) (fun f => Ok (PyFloat (add f g)))
  | PyFloat f, PyInt b =>
      and_then (float_of_int b) (fun g => Ok (PyFloat (add f g)))
  | PyFloat f, PyFloat g => Ok (PyFloat (add f g))
  | _, _ => Raise TypeError
  end.

End Py.

(** The same conversions on binary64 values, as Python computes them:
    used to check that what is stated on integers does not depend on
    finite floats being read as exact rationals. *)
Module Binary64.

(** [float(z)] for an int below 2^63 in magnitude. *)
Definition of_int (z : Z) : float :=
  if z <? 0 then (- of_uint63 (Uint63.of_Z (- z)))%float
  else of_uint63 (Uint63.of_Z z).

(** [int(x)] on a float. *)
Definition int (x : float) : option Z :=
  match Prim2SF x with
  | S754_zero _ => Some 0
  | S754_finite negative m e =>
      let n := if 0 <=? e then Z.shiftl (Zpos m) e
               else Z.shiftr (Zpos m) (- e) in
      Some (if negative then - n else n)
  | _ => None
  end.


(** [int(25000000.0 / (4096.0 * float(freq_hz)) - 1.0 + 0.5)]. *)
Definition prescale_of (freq_hz : float) : option Z :=
  int (25000000 / (4096 * freq_hz) - 1 + 0.5)%float.

End Binary64.

(** ** The bus and the monad of effects *)

Inductive xfer : Type :=
| BusRead (addr reg : Z)
| BusWrite (addr reg val : Z).

(** A transaction that went through, one that was not acknowledged, and a
    call of [time.sleep] (in seconds). *)
Inductive event : Type :=
| Done (x : xfer)
| Failed (x : xfer)
| Slept (secs : Q).

Inductive reply : Type :=
| Ack (data : Z)
| Nack.

(** [pending]: what the wire answers to the coming transactions, in
    order (once exhausted, every transaction is acknowledged with data 0).
    [log]: everything attempted so far, oldest first. *)
Record bus : Type := Bus { pending : list reply; log : list event }.

Definition M (A : Type) : Type := bus -> result A * bus.

Definition ret {A} (a : A) : M A := fun b => (Ok a, b).

Definition raise {A} (e : exn) : M A := fun b => (Raise e, b).

Definition bind {A B} (c : M A) (k : A -> M B) : M B :=
  fun b =>
    match c b with
    | (Ok a, b') => k a b'
    | (Raise e, b') => (Raise e, b')
    end.

Declare Scope py_scope.
Notation "x ← c ; k" := (bind c (fun x => k))
  (at level 20, c at level 100, k at level 200, only parsing) : py_scope.
Notation "c ;; k" := (bind c (fun _ => k))
  (at level 100, k at level 200, only parsing, right associativity) : py_scope.
Open Scope py_scope.

(** A pure computation that may raise. *)
Definition lift {A} (r : result A) : M A :=
  match r with
  | Ok a => ret a
  | Raise e => raise e
  end.

(** [try: c / except Exception: h]. *)
Definition try_except {A} (c : M A) (h : exn -> M A) : M A :=
  fun b =>
    match c b with
    | (Ok a, b') => (Ok a, b')
    | (Raise e, b') => h e b'
    end.

(** [for x in xs: body(x)]. *)
Fixpoint for_each {A} (xs : list A) (body : A -> M unit) : M unit :=
  match xs with
  | [] => ret tt
  | x :: rest => body x ;; for_each rest body
  end.

Definition next_reply (b : bus) : reply := hd (Ack 0) (pending b).

Definition record (e : event) (b : bus) : bus :=
  Bus (tl (pending b)) (log b ++ [e]).

(** [bus.read_byte_data(addr, reg)]. *)
Definition read_byte_data (addr reg : Z) : M Z :=
  fun b =>
    match next_reply b with
    | Ack v => (Ok v, record (Done (BusRead addr reg)) b)
    | Nack => (Raise OSError, record (Failed (BusRead addr reg)) b)
    end.

(** [bus.write_byte_data(addr, reg, val)]. *)
Definition write_byte_data (addr reg val : Z) : M unit :=
  fun b =>
    match next_reply b with
    | Ack _ => (Ok tt, record (Done (BusWrite addr reg val)) b)
    | Nack => (Raise OSError, record (Failed (BusWrite addr reg val)) b)
    end.

(** [time.sleep(secs)]. *)
Definition sleep (secs : Q) : M unit :=
  fun b => (Ok tt, Bus (pending b) (log b ++ [Slept secs])).

(** ** [test.py]: the PCA9685 helpers *)

(** The module global [PCA_ADDR], bound once when the module is loaded. *)
Class Wiring : Type := PCA_ADDR : Z.

Module Pca9685.

Definition MODE1 : Z := 0x00.
Definition MODE2 : Z := 0x01.
Definition LED0_ON_L : Z := 0x06.
Definition PRE_SCALE : Z := 0xFE.

Definition RESTART : Z := 0x80.
Definition SLEEP : Z := 0x10.
Definition AI : Z := 0x20.

Definition OUTDRV : Z := 0x04.

Definition default_candidates : list Z :=
  [0x40; 0x41; 0x42; 0x43; 0x44; 0x45; 0x46; 0x31].

(** The first candidate that answers a read of MODE1. *)
Fixpoint find_pca_addr (candidates : list Z) : M Z :=
  match candidates with
  | [] => raise RuntimeError
  | addr :: rest =>
      try_except (read_byte_data addr MODE1 ;; ret addr)
                 (fun _ => find_pca_addr rest)
  end.

Section Helpers.
Context `{Wiring}.

Definition set_mode_defaults : M unit :=
  oldmode ← read_byte_data PCA_ADDR MODE1;
  write_byte_data PCA_ADDR MODE1
    (Z.lor (Z.land oldmode (Z.lnot RESTART)) SLEEP) ;;
  write_byte_data PCA_ADDR MODE2 OUTDRV ;;
  write_byte_data PCA_ADDR MODE1
    (Z.lor (Z.lor (Z.land oldmode (Z.lnot RESTART)) SLEEP) AI).

(** The first two statements of [set_pwm_freq], before the bus is used:
    [prescaleval = 25000000.0 / (4096.0 * float(freq_hz)) - 1.0] and
    [prescale = int(prescaleval + 0.5)]. *)
Definition prescale_of (freq_hz : Z) : result Z :=
  Py.and_then (Py.float_of_int freq_hz) (fun hz =>
  Py.and_then (Py.div (FNum 25000000) (Py.mul (FNum 4096) hz))
    (fun ratio =>
       let prescaleval := Py.sub ratio (FNum 1) in
       Py.int (Py.add prescaleval (FNum 0.5)))).

Definition set_pwm_freq (freq_hz : Z) : M unit :=
  prescale ← lift (prescale_of freq_hz);
  oldmode ← read_byte_data PCA_ADDR MODE1;
  write_byte_data PCA_ADDR MODE1
    (Z.lor (Z.lor (Z.land oldmode (Z.lnot RESTART)) SLEEP) AI) ;;
  write_byte_data PCA_ADDR PRE_SCALE prescale ;;
  write_byte_data PCA_ADDR MODE1
    (Z.lor (Z.land oldmode (Z.lnot SLEEP)) AI) ;;
  sleep 0.005 ;;
  write_byte_data PCA_ADDR MODE1
    (Z.land (Z.lor (Z.lor (Z.land oldmode (Z.lnot SLEEP)) RESTART) AI) 0xFF).

Definition _write_channel_raw (ch on off : Z) : M unit :=
  let base := LED0_ON_L + 4 * ch in
  write_byte_data PCA_ADDR (base + 0) (Z.land on 0xFF) ;;
  write_byte_data PCA_ADDR (base + 1) (Z.land (Z.shiftr on 8) 0x0F) ;;
  write_byte_data PCA_ADDR (base + 2) (Z.land off 0xFF) ;;
  write_byte_data PCA_ADDR (base + 3) (Z.land (Z.shiftr off 8) 0x0F).

Definition set_channel_pwm (ch duty : Z) : M unit :=
  let duty := Z.max 0 (Z.min 4095 duty) in
  if duty <=? 0 then
    let base := LED0_ON_L + 4 * ch in
    write_byte_data PCA_ADDR (base + 0) 0 ;;
    write_byte_data PCA_ADDR (base + 1) 0 ;;
    write_byte_data PCA_ADDR (base + 2) 0 ;;
    write_byte_data PCA_ADDR (base + 3) 0x10
  else if 4095 <=? duty then
    let base := LED0_ON_L + 4 * ch in
    write_byte_data PCA_ADDR (base + 0) 0 ;;
    write_byte_data PCA_ADDR (base + 1) 0x10 ;;
    write_byte_data PCA_ADDR (base + 2) 0 ;;
    write_byte_data PCA_ADDR (base + 3) 0
  else
    _write_channel_raw ch 0 duty.

Definition set_channel_digital (ch : Z) (high : bool) : M unit :=
  set_channel_pwm ch (if high then 4095 else 0).

(** The dict [MOTORS], in insertion order: motor number, then the pwm
    and dir channels. *)
Definition MOTORS : list (Z * (Z * Z)) :=
  [(1, (0, 2)); (2, (1, 3)); (3, (14, 12)); (4, (15, 13))].

Definition motor_pins (motor : Z) : option (Z * Z) :=
  snd <$> find (fun kv => fst kv =? motor) MOTORS.

Definition motor_set_percent (motor percent : Z) : M unit :=
  match motor_pins motor with
  | None => raise ValueError
  | Some (ch_pwm, ch_dir) =>
      let percent := Z.max (-100) (Z.min 100 percent) in
      if percent =? 0 then set_channel_pwm ch_pwm 0
      else
        let forward := 0 <? percent in
        set_channel_digital ch_dir forward ;;
        scaled ← lift (Py.div (Py.of_int (Z.abs percent * 4095))
                              (Py.of_int 100));
        duty ← lift (Py.int scaled);
        set_channel_pwm ch_pwm duty
  end.

Definition all_stop : M unit :=
  for_each (map fst MOTORS) (fun m => motor_set_percent m 0).

(** The two [print] calls are left out; the two reads that feed the
    second one are kept. *)
Definition initialize (f_pwm_hz : Z) : M unit :=
  set_mode_defaults ;;
  set_pwm_freq f_pwm_hz ;;
  for_each (map snd MOTORS)
    (fun m => set_channel_digital (snd m) false ;; set_channel_pwm (fst m) 0) ;;
  sleep 0.05 ;;
  read_byte_data PCA_ADDR MODE1 ;;
  read_byte_data PCA_ADDR PRE_SCALE ;;
  ret tt.

End Helpers.
End Pca9685.

(** ** [drivebase.py] *)

(** What [_get_lowlevel] finds: the helpers of [test.py], loaded with
    their wiring, or nothing, when [test.py] or one of its dependencies
    cannot be imported.  The first import itself, which opens the bus
    and looks for the controller, is not part of the model: the helpers
    are there already, or cannot be. *)
Class Lowlevel : Type := test_module : option Wiring.

(** The helpers are loaded. *)
Definition loaded (w : Wiring) : Lowlevel := Some w.
Coercion loaded : Wiring >-> Lowlevel.
#[global] Existing Instance loaded.

(** The import fails. *)
Definition unavailable : Lowlevel := None.

(** [_get_lowlevel()]: the helpers, or [ImportError]. *)
Definition _get_lowlevel `{Lowlevel} : M Wiring :=
  match test_module with
  | Some helpers => ret helpers
  | None => raise ImportError
  end.

Module Motor.

Record t : Type := Make {
  pwm_ch : Z;
  dir_ch : Z;
  direction : Z;
  max_percent : Z;
  deadband : Z
}.

(** [Motor(pwm_ch=.., dir_ch=.., direction=..)] with the dataclass defaults. *)
Definition new (pwm dir polarity : Z) : t := Make pwm dir polarity 40 2.

Section Methods.
Context `{Lowlevel}.

(** [self.deadband] and [self.max_percent] are compared with the float
    as the integers they are; [self.max_percent], when [min] returns it,
    enters the division as the float of the same value. *)
Definition set_power (self : t) (power : pyobj) : M unit :=
  helpers ← _get_lowlevel;
  cmd ← try_except (lift (Py.float power)) (fun _ => raise ValueError);
  let effective :=
    Py.mul cmd (Py.of_int (if 0 <=? direction self then 1 else -1)) in
  let forward := Py.ge effective (Py.of_int 0) in
  @Pca9685.set_channel_digital helpers (dir_ch self) forward ;;
  let magnitude := Py.abs effective in
  if Py.le magnitude (Py.of_int (deadband self)) then
    @Pca9685.set_channel_pwm helpers (pwm_ch self) 0
  else
    let magnitude := Py.min (Py.of_int (max_percent self)) magnitude in
    scaled ← lift (Py.div magnitude (FNum 100));
    duty ← lift (Py.int (Py.mul scaled (Py.of_int 4095)));
    @Pca9685.set_channel_pwm helpers (pwm_ch self) duty.

Definition setPower (self : t) (power : pyobj) : M unit :=
  set_power self power.

End Methods.

(** The static method: [int((p / 100.0) * 4095)] for [p] the percentage
    brought into 0..100. *)
Definition percentage_to_12bit (percentage : pyobj) : result Z :=
  Py.and_then (Py.float percentage) (fun x =>
  let p := Py.max (FNum 0) (Py.min (FNum 100) x) in
  Py.and_then (Py.div p (FNum 100)) (fun scaled =>
  Py.int (Py.mul scaled (Py.of_int 4095)))).

End Motor.

Module XDrive.

Record t : Type := Make {
  BackLeft : Motor.t;
  FrontLeft : Motor.t;
  BackRight : Motor.t;
  FrontRight : Motor.t
}.

(** [self._motors]. *)
Definition _motors (self : t) : list Motor.t :=
  [BackLeft self; FrontLeft self; BackRight self; FrontRight self].

Definition default_dirs : gmap string Z :=
  {[ "BackLeft"%string := 1; "FrontLeft"%string := 1;
     "BackRight"%string := -1; "FrontRight"%string := -1 ]}.

(** [default_dirs.update(motor_directions)], when overrides are given
    (an empty dict of overrides changes nothing either way). *)
Definition polarities (motor_directions : option (gmap string Z))
  : gmap string Z :=
  match motor_directions with
  | Some overrides => overrides ∪ default_dirs
  | None => default_dirs
  end.

Section Methods.
Context `{Lowlevel}.

Definition init (initialize_hw : bool) (pwm_frequency_hz : Z)
    (motor_directions : option (gmap string Z)) : M t :=
  (if initialize_hw
   then helpers ← _get_lowlevel;
        @Pca9685.initialize helpers pwm_frequency_hz
   else ret tt) ;;
  let dirs := polarities motor_directions in
  ret (Make (Motor.new 1 3 (dirs !!! "BackLeft"%string))
            (Motor.new 0 2 (dirs !!! "FrontLeft"%string))
            (Motor.new 14 13 (dirs !!! "BackRight"%string))
            (Motor.new 15 12 (dirs !!! "FrontRight"%string))).

Definition setPower (self : t)
    (backLeftPower frontLeftPower backRightPower frontRightPower : pyobj)
  : M unit :=
  Motor.set_power (BackLeft self) backLeftPower ;;
  Motor.set_power (FrontLeft self) frontLeftPower ;;
  Motor.set_power (BackRight self) backRightPower ;;
  Motor.set_power (FrontRight self) frontRightPower.

Definition drive (self : t) (x y heading_correction : pyobj) : M unit :=
  bl ← lift (Py.and_then (Py.obj_sub y x)
               (fun d => Py.obj_sub d heading_correction));
  fl ← lift (Py.and_then (Py.obj_add y x)
               (fun d => Py.obj_add d heading_correction));
  br ← lift (Py.and_then (Py.obj_add y x)
               (fun d => Py.obj_sub d heading_correction));
  fr ← lift (Py.and_then (Py.obj_sub y x)
               (fun d => Py.obj_add d heading_correction));
  setPower self bl fl br fr.

Definition all_stop (self : t) : M unit :=
  for_each (_motors self) (fun m => Motor.set_power m (PyInt 0)).

Definition cleanup (self : t) : M unit :=
  helpers ← _get_lowlevel;
  for_each (map Z.of_nat (seq 0 16))
    (fun ch => try_except (@Pca9685.set_channel_pwm helpers ch 0)
                          (fun _ => ret tt)) ;;
  for_each [2; 3; 12; 13]
    (fun ch => try_except (@Pca9685.set_channel_digital helpers ch false)
                          (fun _ => ret tt)).

End Methods.
End XDrive.

(** ** The scripts that drive the chassis *)

(** [time.sleep(secs)] for a duration that is an argument: a negative
    one is a [ValueError]. *)
Definition time_sleep (secs : Q) : M unit :=
  if Qle_bool 0 secs then sleep secs else raise ValueError.

(** [square_test.py]. *)
Module SquareTest.
Section Script.
Context `{Lowlevel}.

(** The closure [drive_segment] of [main], over its [robot]. *)
Definition drive_segment (robot : XDrive.t) (x y : pyobj) (duration : Q)
  : M unit :=
  XDrive.drive robot x y (PyInt 0) ;;
  time_sleep duration ;;
  XDrive.drive robot (PyInt 0) (PyInt 0) (PyInt 0) ;;
  time_sleep 0.5.

End Script.
End SquareTest.

(** [motor_test.py]. *)
Module MotorTest.
Section Script.
Context `{Lowlevel}.

(** The closure [test_motor] of [main], without its prints. *)
Definition test_motor (motor : Motor.t) (power : Z) (duration : Q) : M unit :=
  Motor.set_power motor (PyInt power) ;;
  time_sleep duration ;;
  Motor.set_power motor (PyInt 0) ;;
  time_sleep 0.5 ;;
  Motor.set_power motor (PyInt (- power)) ;;
  time_sleep duration ;;
  Motor.set_power motor (PyInt 0) ;;
  time_sleep 1.

End Script.
End MotorTest.

(** ** Vocabulary of the specification *)

(** [n] is an integer nearest to [x]: what "round(x)" may denote, under
    any treatment of ties. *)
Definition nearest_integer (x : Q) (n : Z) : Prop :=
  (Qabs (x - inject_Z n) <= 1 # 2)%Q.

(** A bus on which every coming transaction is acknowledged. *)
Definition responsive (b : bus) : Prop :=
  Forall (fun r => r <> Nack) (pending b).

(** Issue the transfers one after the other; the first one that is not
    acknowledged raises and the rest is not attempted. *)
Fixpoint play (xs : list xfer) : M unit :=
  match xs with
  | [] => ret tt
  | BusRead addr reg :: rest => read_byte_data addr reg ;; play rest
  | BusWrite addr reg val :: rest => write_byte_data addr reg val ;; play rest
  end.

(** The transfer was put on the wire, acknowledged or not. *)
Definition attempted (x : xfer) (evs : list event) : Prop :=
  In (Done x) evs \/ In (Failed x) evs.

(** The register of each acknowledged write, in order. *)
Definition written_regs (evs : list event) : list Z :=
  omap (fun e => match e with
                 | Done (BusWrite _ reg _) => Some reg
                 | _ => None
                 end) evs.

Section Encodings.
Context `{Wiring}.

(** The four registers of a channel, from 0x06 + 4 x channel:
    on-low, on-high, off-low, off-high. *)
Definition channel_block (ch on_l on_h off_l off_h : Z) : list xfer :=
  let base := Pca9685.LED0_ON_L + 4 * ch in
  [ BusWrite PCA_ADDR (base + 0) on_l; BusWrite PCA_ADDR (base + 1) on_h;
    BusWrite PCA_ADDR (base + 2) off_l; BusWrite PCA_ADDR (base + 3) off_h ].

(** Full-off: bit 4 of the off-high register, all else 0. *)
Definition full_off (ch : Z) : list xfer := channel_block ch 0 0 0 0x10.

(** Full-on: bit 4 of the on-high register, all else 0. *)
Definition full_on (ch : Z) : list xfer := channel_block ch 0 0x10 0 0.

(** The generic pair: each 12-bit count split into its low byte and its
    high byte. *)
Definition on_off_pair (ch on off : Z) : list xfer :=
  channel_block ch (on mod 256) (on / 256) (off mod 256) (off / 256).

(** The three-way encoding of a duty. *)
Definition duty_encoding (ch duty : Z) : list xfer :=
  if duty <=? 0 then full_off ch
  else if 4095 <=? duty then full_on ch
  else on_off_pair ch 0 duty.

(** A digital level on a channel. *)
Definition level_encoding (ch : Z) (high : bool) : list xfer :=
  if high then full_on ch else full_off ch.

End Encodings.

(** The command of a motor, in the words of the specification. *)
Module Command.

(** [power x (polarity >= 0 ? 1 : -1)]. *)
Definition effective (m : Motor.t) (cmd : pyfloat) : pyfloat :=
  Py.mul cmd (Py.of_int (if 0 <=? Motor.direction m then 1 else -1)).

(** The direction bit: [effective >= 0]. *)
Definition forward (m : Motor.t) (cmd : pyfloat) : bool :=
  Py.ge (effective m cmd) (Py.of_int 0).

Definition magnitude (m : Motor.t) (cmd : pyfloat) : pyfloat :=
  Py.abs (effective m cmd).

(** [magnitude <= deadbandPercent]. *)
Definition in_deadband (m : Motor.t) (cmd : pyfloat) : bool :=
  Py.le (magnitude m cmd) (Py.of_int (Motor.deadband m)).

(** [min(maxPercentMagnitude, magnitude)]: the cap, unless the magnitude
    is a number below it. *)
Definition capped (m : Motor.t) (cmd : pyfloat) : Q :=
  match magnitude m cmd with
  | FNum q =>
      if Qle_bool (inject_Z (Motor.max_percent m)) q
      then inject_Z (Motor.max_percent m) else q
  | _ => inject_Z (Motor.max_percent m)
  end.

(** The duty with the fraction cut off. *)
Definition duty (m : Motor.t) (cmd : pyfloat) : Z :=
  if in_deadband m cmd then 0
  else Py.Qtrunc (capped m cmd / 100 * 4095).

End Command.

(** The transfers of one motor command: the direction level, then the
    duty. *)
Definition motor_transfers `{Wiring} (m : Motor.t) (cmd : pyfloat)
  : list xfer :=
  level_encoding (Motor.dir_ch m) (Command.forward m cmd)
  ++ duty_encoding (Motor.pwm_ch m) (Command.duty m cmd).

(** The sixteen channels, and the direction channels [cleanup] knows. *)
Definition all_channels : list Z := map Z.of_nat (seq 0 16).

Definition known_dir_channels : list Z := [2; 3; 12; 13].

(** The state of the SLEEP bit after each acknowledged write of MODE1,
    and whether every write of PRE_SCALE put on the wire found the device
    asleep. *)
Fixpoint prescale_only_asleep (asleep : bool) (evs : list event) : bool :=
  match evs with
  | [] => true
  | Done (BusWrite _ reg val) :: rest =>
      if reg =? Pca9685.MODE1 then prescale_only_asleep (Z.testbit val 4) rest
      else if reg =? Pca9685.PRE_SCALE
           then asleep && prescale_only_asleep asleep rest
           else prescale_only_asleep asleep rest
  | Failed (BusWrite _ reg _) :: rest =>
      if reg =? Pca9685.PRE_SCALE
      then asleep && prescale_only_asleep asleep rest
      else prescale_only_asleep asleep rest
  | _ :: rest => prescale_only_asleep asleep rest
  end.

(** How many of the coming transactions go unanswered before one is
    acknowledged. *)
Fixpoint unanswered (replies : list reply) : nat :=
  match replies with
  | Nack :: rest => S (unanswered rest)
  | _ => 0
  end.

(** A probe of MODE1 at each address, as logged when not answered. *)
Definition failed_probes (addrs : list Z) : list event :=
  map (fun addr => Failed (BusRead addr Pca9685.MODE1)) addrs.

(** The register block of a channel. *)
Definition in_block (ch reg : Z) : Prop :=
  Pca9685.LED0_ON_L + 4 * ch <= reg <= Pca9685.LED0_ON_L + 4 * ch + 3.

(** A write, acknowledged or not, to the block of one of the channels. *)
Definition write_within `{Wiring} (chs : list Z) (e : event) : Prop :=
  exists reg val,
    (e = Done (BusWrite PCA_ADDR reg val)
     \/ e = Failed (BusWrite PCA_ADDR reg val))
    /\ exists ch, In ch chs /\ in_block ch reg.

(** Two floats that are the same number: rationals are compared by
    value, not by representation. *)
Definition same_float (x y : pyfloat) : Prop :=
  match x, y with
  | FNum a, FNum b => (a == b)%Q
  | FInf s, FInf t => s = t
  | FNaN, FNaN => True
  | _, _ => False
  end.


(** A number that binary64 holds exactly: any float, and an int of at
    most 2^53 in magnitude. *)
Definition exactly_held (x : pyobj) : Prop :=
  match x with
  | PyInt z => Z.abs z <= 2 ^ 53
  | PyFloat _ => True
  | PyNone => False
  end.


(** The SLEEP bit after the events, from the acknowledged writes of
    MODE1. *)
Fixpoint asleep_after (asleep : bool) (evs : list event) : bool :=
  match evs with
  | [] => asleep
  | Done (BusWrite _ reg val) :: rest =>
      if reg =? Pca9685.MODE1 then asleep_after (Z.testbit val 4) rest
      else asleep_after asleep rest
  | _ :: rest => asleep_after asleep rest
  end.

(** The transfers that stop a motor whose deadband is not negative: the
    forward level, then duty 0. *)
Definition stop_transfers `{Wiring} (m : Motor.t) : list xfer :=
  full_on (Motor.dir_ch m) ++ full_off (Motor.pwm_ch m).


(** The polarity a wheel gets: the override when there is one. *)
Definition polarity_of (motor_directions : option (gmap string Z))
    (wheel : string) (default : Z) : Z :=
  match motor_directions with
  | Some overrides =>
      match overrides !! wheel with
      | Some polarity => polarity
      | None => default
      end
  | None => default
  end.

(** What [initialize] writes to switch the motors of the table off: for
    each motor the direction channel, then the PWM channel. *)
Definition table_off `{Wiring} : list xfer :=
  full_off 2 ++ full_off 0 ++ full_off 3 ++ full_off 1
  ++ full_off 12 ++ full_off 14 ++ full_off 13 ++ full_off 15.


(** ** Settings of the examples *)

(** The first address probed, 0x40. *)
Definition first_address : Wiring := 0x40.

(** A bus with nothing logged on which everything is acknowledged. *)
Definition quiet_bus : bus := Bus [] [].

(** The robot [XDrive()] builds when no polarity is overridden. *)
Definition default_robot : XDrive.t :=
  XDrive.Make (Motor.new 1 3 1) (Motor.new 0 2 1)
              (Motor.new 14 13 (-1)) (Motor.new 15 12 (-1)).

(** ** Running computations on the bus *)

Lemma drop_tl {A} (n : nat) (l : list A) : drop n (tl l) = drop (S n) l.
Proof. destruct l; simpl; [now rewrite drop_nil | reflexivity]. Qed.

Lemma responsive_record (e : event) (b : bus) :
  responsive b -> responsive (record e b).
Proof.
  unfold responsive, record; simpl.
  destruct (pending b) as [|r rs]; simpl; [constructor|].
  now inversion 1.
Qed.

Lemma responsive_next (b : bus) :
  responsive b -> exists v, next_reply b = Ack v.
Proof.
  unfold responsive, next_reply.
  destruct (pending b) as [|[v|] rs]; simpl; intros Hb; eauto.
  inversion Hb; congruence.
Qed.

Lemma responsive_drop (n : nat) (b : bus) (l : list event) :
  responsive b -> responsive (Bus (drop n (pending b)) l).
Proof. unfold responsive; simpl. apply Forall_drop. Qed.

Lemma write_ok (addr reg val : Z) (b : bus) :
  responsive b ->
  write_byte_data addr reg val b
  = (Ok tt, record (Done (BusWrite addr reg val)) b).
Proof.
  intros Hb. unfold write_byte_data.
  destruct (responsive_next b Hb) as [v ->]. reflexivity.
Qed.

Lemma bind_unit_ret (c : M unit) (b : bus) : (c ;; ret tt) b = c b.
Proof. unfold bind, ret. destruct (c b) as [[[]|e] b']; reflexivity. Qed.

Lemma bind_ext {A B} (c c' : M A) (k k' : A -> M B) (b : bus) :
  c b = c' b -> (forall a b', k a b' = k' a b') ->
  bind c k b = bind c' k' b.
Proof.
  intros Hc Hk. unfold bind. rewrite Hc.
  destruct (c' b) as [[a|e] b']; [apply Hk | reflexivity].
Qed.

Lemma play_app (xs ys : list xfer) (b : bus) :
  play (xs ++ ys) b = (play xs ;; play ys) b.
Proof.
  revert b. induction xs as [|[a r|a r v] xs IH]; intros b; simpl.
  - reflexivity.
  - unfold bind. destruct (read_byte_data a r b) as [[z|e] b'].
    + rewrite IH. reflexivity.
    + reflexivity.
  - unfold bind. destruct (write_byte_data a r v b) as [[u|e] b'].
    + rewrite IH. reflexivity.
    + reflexivity.
Qed.

(** On a responsive bus the whole sequence goes through. *)
Lemma play_ok (xs : list xfer) (b : bus) :
  responsive b ->
  play xs b
  = (Ok tt, Bus (drop (length xs) (pending b)) (log b ++ map Done xs)).
Proof.
  revert b. induction xs as [|x xs IH]; intros b Hb; simpl.
  - rewrite app_nil_r, drop_0. now destruct b.
  - assert (Hx : forall e, responsive (record e b))
      by (intros e; now apply responsive_record).
    destruct (responsive_next b Hb) as [v Hv].
    destruct x as [a r|a r w]; unfold bind, read_byte_data, write_byte_data;
      rewrite Hv, IH by apply Hx; simpl;
      now rewrite drop_tl, <- app_assoc.
Qed.

(** Whatever the bus does, the log only grows, and a sequence of
    transfers raises nothing but the bus error of a missing acknowledge. *)
Lemma play_log (xs : list xfer) (b : bus) :
  exists evs, log (snd (play xs b)) = log b ++ evs.
Proof.
  revert b. induction xs as [|x xs IH]; intros b; simpl.
  - exists []. now rewrite app_nil_r.
  - destruct x as [a r|a r w]; unfold bind, read_byte_data, write_byte_data;
      destruct (next_reply b); simpl;
      try (destruct (IH (record (Done (BusRead a r)) b)) as [evs ->]);
      try (destruct (IH (record (Done (BusWrite a r w)) b)) as [evs ->]);
      simpl; rewrite <- ?app_assoc; eauto.
Qed.

Lemma play_raises (xs : list xfer) (b : bus) (e : exn) :
  fst (play xs b) = Raise e -> e = OSError /\ ~ responsive b.
Proof.
  intros Hr. split.
  - revert b Hr. induction xs as [|x xs IH]; intros b; simpl; [discriminate|].
    destruct x as [a r|a r w]; unfold bind, read_byte_data, write_byte_data;
      destruct (next_reply b); simpl; try apply IH; congruence.
  - intros Hb. rewrite play_ok in Hr by assumption. discriminate.
Qed.

(** The first transfer of a sequence is always put on the wire. *)
Lemma play_first_attempted (x : xfer) (xs : list xfer) (b : bus) :
  exists evs, log (snd (play (x :: xs) b)) = log b ++ evs /\ attempted x evs.
Proof.
  simpl. destruct x as [a r|a r w];
    unfold bind, read_byte_data, write_byte_data, attempted;
    destruct (next_reply b); simpl;
    try (destruct (play_log xs (record (Done (BusRead a r)) b)) as [evs ->]);
    try (destruct (play_log xs (record (Done (BusWrite a r w)) b)) as [evs ->]);
    simpl; rewrite <- ?app_assoc; eexists; split; try reflexivity;
    simpl; auto.
Qed.

(** ** The conversion of an int to a float *)

(** An int of at most 53 bits is held exactly. *)
Lemma nearest_float_exact (z : Z) :
  Z.abs z <= 2 ^ 53 -> Py.nearest_float z = z.
Proof.
  intros Hz. unfold Py.nearest_float.
  destruct (Z.eq_dec (Z.abs z) (2 ^ 53)) as [Heq | Hne].
  - rewrite Heq. change (Z.log2 (2 ^ 53) - 52) with 1. cbv zeta.
    change (1 <=? 0) with false. cbv iota.
    change (Z.land (2 ^ 53) (Z.ones 1)) with 0.
    change (Z.shiftr (2 ^ 53) 1) with (2 ^ 52).
    change (Z.shiftl 1 (1 - 1)) with 1.
    change ((1 <? 0) || (0 =? 1) && Z.odd (2 ^ 52)) with false. cbv iota.
    change (Z.shiftl (2 ^ 52) 1) with (2 ^ 53). rewrite <- Heq.
    rewrite Z.mul_comm. apply Z.abs_sgn.
  - assert (Hlog : Z.log2 (Z.abs z) - 52 <= 0).
    { destruct (Z.eq_dec (Z.abs z) 0) as [-> | Hnz]; [simpl; lia|].
      assert (Z.log2 (Z.abs z) < 53); [|lia].
      apply Z.log2_lt_pow2; lia. }
    apply Z.leb_le in Hlog. now rewrite Hlog.
Qed.

(** The rounded magnitude: between the 53 leading bits and one more. *)
Lemma nearest_float_bounds (z : Z) :
  let a := Z.abs z in
  let shift := Z.log2 a - 52 in
  0 < shift ->
  exists m,
    Py.nearest_float z = Z.sgn z * (m * 2 ^ shift)
    /\ (2 ^ 52 <= m <= 2 ^ 53).
Proof.
  intros a shift Hshift. unfold Py.nearest_float. fold a. fold shift.
  assert (Hs : (shift <=? 0) = false) by (apply Z.leb_gt; lia).
  rewrite Hs. cbv zeta.
  set (q := Z.shiftr a shift).
  assert (Ha : 0 < a).
  { destruct (Z.eq_dec a 0) as [E | E].
    - subst shift. rewrite E in Hshift. simpl in Hshift. lia.
    - subst a. lia. }
  assert (Hq : 2 ^ 52 <= q < 2 ^ 53).
  { subst q. rewrite Z.shiftr_div_pow2 by lia.
    pose proof (Z.log2_spec a Ha) as [Hlo Hhi].
    replace (Z.log2 a) with (52 + shift) in Hlo by (subst shift; lia).
    replace (Z.succ (Z.log2 a)) with (53 + shift) in Hhi by (subst shift; lia).
    rewrite Z.pow_add_r in Hlo, Hhi by lia.
    assert (Hp : 0 < 2 ^ shift) by (apply Z.pow_pos_nonneg; lia).
    split.
    - apply Z.div_le_lower_bound; lia.
    - apply Z.div_lt_upper_bound; lia. }
  match goal with |- context [if ?c then _ else _] => destruct c end;
    [exists (q + 1) | exists q]; rewrite Z.shiftl_mul_pow2 by lia;
    (split; [reflexivity | lia]).
Qed.

Lemma float_of_int_exact (z : Z) :
  Z.abs z <= 2 ^ 53 -> Py.float_of_int z = Ok (Py.of_int z).
Proof.
  intros Hz. unfold Py.float_of_int. rewrite nearest_float_exact by assumption.
  assert (Hlog : Z.log2 (Z.abs z) < 1024).
  { destruct (Z.eq_dec (Z.abs z) 0) as [-> | Hnz]; [reflexivity|].
    apply Z.log2_lt_pow2; [lia|].
    apply Z.le_lt_trans with (2 ^ 53); [assumption | reflexivity]. }
  apply Z.ltb_lt in Hlog. now rewrite Hlog.
Qed.

Lemma nearest_float_log2 (z : Z) :
  Z.log2 (Z.abs z) <= Z.log2 (Z.abs (Py.nearest_float z))
  <= Z.log2 (Z.abs z) + 1.
Proof.
  destruct (Z.le_gt_cases (Z.log2 (Z.abs z) - 52) 0) as [Hsmall | Hbig].
  - unfold Py.nearest_float. apply Z.leb_le in Hsmall. rewrite Hsmall. lia.
  - destruct (nearest_float_bounds z ltac:(lia)) as (m & -> & Hm).
    set (shift := Z.log2 (Z.abs z) - 52) in *.
    assert (Hz : z <> 0).
    { intros ->. subst shift. simpl in Hbig. lia. }
    assert (Hp : 0 < 2 ^ shift) by (apply Z.pow_pos_nonneg; lia).
    assert (Habs : Z.abs (Z.sgn z * (m * 2 ^ shift)) = m * 2 ^ shift).
    { rewrite Z.abs_mul, (Z.abs_eq (m * 2 ^ shift)) by nia.
      destruct z; [congruence | apply Z.mul_1_l | apply Z.mul_1_l]. }
    rewrite Habs.
    assert (Hlo : 2 ^ (52 + shift) <= m * 2 ^ shift).
    { rewrite Z.pow_add_r by lia. nia. }
    assert (Hhi : m * 2 ^ shift < 2 ^ (54 + shift)).
    { rewrite Z.pow_add_r by lia.
      assert (2 ^ 53 < 2 ^ 54) by reflexivity. nia. }
    split.
    + replace (Z.log2 (Z.abs z)) with (52 + shift) by (subst shift; lia).
      apply Z.log2_le_pow2; [nia | exact Hlo].
    + assert (Z.log2 (m * 2 ^ shift) < 54 + shift); [|subst shift; lia].
      apply Z.log2_lt_pow2; [nia | exact Hhi].
Qed.

Lemma float_of_int_fits (z : Z) :
  Z.abs z < 2 ^ 1023 -> Py.float_of_int z = Ok (Py.of_int (Py.nearest_float z)).
Proof.
  intros Hz. unfold Py.float_of_int.
  assert (Hlog : Z.log2 (Z.abs (Py.nearest_float z)) < 1024).
  { pose proof (nearest_float_log2 z) as [_ Hhi].
    assert (Z.log2 (Z.abs z) < 1023); [|lia].
    destruct (Z.eq_dec (Z.abs z) 0) as [-> | Hnz]; [reflexivity|].
    apply Z.log2_lt_pow2; lia. }
  apply Z.ltb_lt in Hlog. now rewrite Hlog.
Qed.

Lemma float_of_int_overflow (z : Z) :
  2 ^ 1024 <= Z.abs z -> Py.float_of_int z = Raise OverflowError.
Proof.
  intros Hz. unfold Py.float_of_int.
  assert (Hlog : 1024 <= Z.log2 (Z.abs (Py.nearest_float z))).
  { pose proof (nearest_float_log2 z) as [Hlo _].
    assert (1024 <= Z.log2 (Z.abs z)); [|lia].
    apply Z.log2_le_pow2; [|assumption].
    apply Z.lt_le_trans with (2 ^ 1024); [reflexivity | assumption]. }
  apply Z.ltb_ge in Hlog. now rewrite Hlog.
Qed.

Lemma float_of_int_cases (z : Z) :
  Py.float_of_int z = Ok (Py.of_int (Py.nearest_float z))
  \/ Py.float_of_int z = Raise OverflowError.
Proof. unfold Py.float_of_int. destruct (_ <? _); auto. Qed.

Lemma nearest_float_large (z : Z) :
  2 ^ 53 <= z -> 2 ^ 53 <= Py.nearest_float z.
Proof.
  intros Hz.
  destruct (Z.eq_dec z (2 ^ 53)) as [-> | Hne].
  - rewrite nearest_float_exact; [lia | reflexivity].
  - assert (Hlog : 53 <= Z.log2 (Z.abs z)).
    { apply Z.log2_le_pow2; lia. }
    destruct (nearest_float_bounds z ltac:(lia)) as (m & -> & Hm).
    set (shift := Z.log2 (Z.abs z) - 52) in *.
    assert (Hsgn : Z.sgn z = 1) by (apply Z.sgn_pos; lia).
    rewrite Hsgn, Z.mul_1_l.
    assert (H2 : 2 ^ 1 <= 2 ^ shift) by (apply Z.pow_le_mono_r; lia).
    change (2 ^ 53) with (2 ^ 52 * 2 ^ 1). nia.
Qed.

(** ** The channel operations as sequences of transfers *)

Lemma low_byte (d : Z) : Z.land d 0xFF = d mod 256.
Proof. exact (Z.land_ones d 8 ltac:(lia)). Qed.

Lemma high_nibble (d : Z) :
  0 <= d < 4096 -> Z.land (Z.shiftr d 8) 0x0F = d / 256.
Proof.
  intros Hd. rewrite Z.shiftr_div_pow2 by lia.
  change 0x0F with (Z.ones 4). rewrite Z.land_ones by lia.
  change (2 ^ 8) with 256. change (2 ^ 4) with 16.
  apply Z.mod_small. split.
  - apply Z.div_pos; lia.
  - apply Z.div_lt_upper_bound; lia.
Qed.

(** Case analysis on the outcome of each write of a sequence. *)
Ltac run_writes :=
  unfold bind;
  repeat (destruct (write_byte_data _ _ _ _) as [[[]|?] ?]; try reflexivity).

Section ChannelOps.
Context `{Wiring}.

Lemma set_channel_pwm_play (ch duty : Z) (b : bus) :
  Pca9685.set_channel_pwm ch duty b = play (duty_encoding ch duty) b.
Proof.
  unfold Pca9685.set_channel_pwm, duty_encoding.
  destruct (Z.leb_spec duty 0) as [H0|H0].
  - replace (Z.max 0 (Z.min 4095 duty)) with 0 by lia. simpl.
    run_writes.
  - destruct (Z.leb_spec 4095 duty) as [H1|H1].
    + replace (Z.max 0 (Z.min 4095 duty)) with 4095 by lia. simpl.
      run_writes.
    + replace (Z.max 0 (Z.min 4095 duty)) with duty by lia.
      destruct (Z.leb_spec duty 0); [lia|].
      destruct (Z.leb_spec 4095 duty); [lia|].
      unfold Pca9685._write_channel_raw, on_off_pair, channel_block.
      rewrite !low_byte, !high_nibble by lia.
      simpl. run_writes.
Qed.

Lemma set_channel_digital_play (ch : Z) (high : bool) (b : bus) :
  Pca9685.set_channel_digital ch high b = play (level_encoding ch high) b.
Proof.
  unfold Pca9685.set_channel_digital. rewrite set_channel_pwm_play.
  now destruct high.
Qed.

End ChannelOps.

(** ** [Motor.set_power] as a direction write followed by a duty write *)

Lemma min_capped (m : Motor.t) (cmd : pyfloat) :
  Py.min (Py.of_int (Motor.max_percent m)) (Command.magnitude m cmd)
  = FNum (Command.capped m cmd).
Proof.
  unfold Command.capped, Command.magnitude, Py.min.
  destruct (Command.effective m cmd) as [q|s|]; simpl; try reflexivity.
  now destruct (Qle_bool (inject_Z (Motor.max_percent m)) (Qabs q)).
Qed.

Section SetPower.
Context `{Wiring}.

(** With the helpers loaded [_get_lowlevel] hands them over. *)
Lemma get_lowlevel_loaded {A} (k : Wiring -> M A) (b : bus) :
  (helpers ← _get_lowlevel; k helpers) b = k H b.
Proof. reflexivity. Qed.

Lemma set_power_play (m : Motor.t) (power : pyobj) (cmd : pyfloat) (b : bus) :
  Py.float power = Ok cmd ->
  Motor.set_power m power b
  = play (level_encoding (Motor.dir_ch m) (Command.forward m cmd)
          ++ duty_encoding (Motor.pwm_ch m) (Command.duty m cmd)) b.
Proof.
  intros Hcmd. rewrite play_app.
  unfold Motor.set_power. rewrite get_lowlevel_loaded.
  unfold try_except. unfold bind at 1. rewrite Hcmd.
  change (lift (Ok cmd) b) with (Ok cmd, b). cbv beta iota.
  apply bind_ext.
  - apply set_channel_digital_play.
  - intros _ b1.
    change (Py.le _ (Py.of_int (Motor.deadband m)))
      with (Command.in_deadband m cmd).
    unfold Command.duty. destruct (Command.in_deadband m cmd).
    + apply set_channel_pwm_play.
    + change (Py.abs _) with (Command.magnitude m cmd).
      rewrite min_capped. apply set_channel_pwm_play.
Qed.

(** A power that [float()] rejects is refused before the bus is touched. *)
Lemma set_power_rejects (m : Motor.t) (power : pyobj) (e : exn) (b : bus) :
  Py.float power = Raise e ->
  Motor.set_power m power b = (Raise ValueError, b).
Proof.
  intros Hp. unfold Motor.set_power. rewrite get_lowlevel_loaded.
  unfold try_except, bind. now rewrite Hp.
Qed.

End SetPower.

(** ** The channel operations of the controller *)

Section ChannelClaims.
Context `{Wiring}.

(** C5.  For every channel (valid ones in particular), on a bus that
    acknowledges, [set_channel_pwm] writes the four registers of the
    channel: with [duty <= 0] the full-off encoding (off-high = 0x10, the
    other three 0); with [duty >= 4095] the full-on encoding (on-high =
    0x10, the other three 0); with [0 < duty < 4095] on = 0 and off = duty
    split into its low byte and its high byte.  At the two extremes what
    is written is not the generic pair of any 12-bit count.  On any bus
    the operation is the sequence of these four transfers. *)
Theorem set_channel_pwm_three_way (ch duty : Z) (b : bus) :
  0 <= ch <= 15 ->
  responsive b ->
  exists b',
    Pca9685.set_channel_pwm ch duty b = (Ok tt, b') /\
    (duty <= 0 ->
     log b' = log b ++ map Done (channel_block ch 0 0 0 0x10)) /\
    (4095 <= duty ->
     log b' = log b ++ map Done (channel_block ch 0 0x10 0 0)) /\
    (0 < duty < 4095 ->
     log b' = log b
              ++ map Done (channel_block ch 0 0 (duty mod 256) (duty / 256))
     /\ duty = 256 * (duty / 256) + duty mod 256
     /\ 0 <= duty mod 256 < 256 /\ 0 <= duty / 256 < 16) /\
    (duty <= 0 \/ 4095 <= duty ->
     forall count, 0 <= count <= 4095 ->
       log b' <> log b ++ map Done (on_off_pair ch 0 count)) /\
    (forall b0,
       Pca9685.set_channel_pwm ch duty b0 = play (duty_encoding ch duty) b0).
Proof.
  intros _ Hb. eexists. split.
  { rewrite set_channel_pwm_play. apply play_ok, Hb. }
  cbn [log]. unfold duty_encoding, full_off, full_on, on_off_pair.
  assert (Hcount : forall count, 0 <= count <= 4095 -> count / 256 < 16)
    by (intros; apply Z.div_lt_upper_bound; lia).
  repeat split.
  - intros Hd. destruct (Z.leb_spec duty 0); [reflexivity | lia].
  - intros Hd. destruct (Z.leb_spec duty 0); [lia|].
    destruct (Z.leb_spec 4095 duty); [reflexivity | lia].
  - destruct (Z.leb_spec duty 0); [lia|].
    destruct (Z.leb_spec 4095 duty); [lia | reflexivity].
  - pose proof (Z.div_mod duty 256). lia.
  - apply Z.mod_pos_bound; lia.
  - apply Z.mod_pos_bound; lia.
  - apply Z.div_pos; lia.
  - apply Z.div_lt_upper_bound; lia.
  - intros Hd count Hc Heq. apply app_inv_head in Heq.
    specialize (Hcount count Hc).
    destruct (Z.leb_spec duty 0).
    + unfold channel_block in Heq. simpl in Heq.
      inversion Heq; lia.
    + destruct (Z.leb_spec 4095 duty); [|lia].
      unfold channel_block in Heq. simpl in Heq.
      inversion Heq; lia.
  - intros b0. apply set_channel_pwm_play.
Qed.

(** C4, as the code has it.  The per-channel operations do not check the
    channel: for every channel argument, in 0..15 or not, on a bus that
    acknowledges they raise nothing and write the four registers
    0x06 + 4 x channel + 0..3.  The only error they can raise is the bus
    error of a transfer that is not acknowledged. *)
Theorem channel_ops_accept_any_channel (ch duty : Z) (high : bool) (b : bus) :
  let base := Pca9685.LED0_ON_L + 4 * ch in
  (responsive b ->
   exists evs,
     Pca9685.set_channel_pwm ch duty b
     = (Ok tt, Bus (drop 4 (pending b)) (log b ++ evs)) /\
     written_regs evs = [base + 0; base + 1; base + 2; base + 3]) /\
  (responsive b ->
   exists evs,
     Pca9685.set_channel_digital ch high b
     = (Ok tt, Bus (drop 4 (pending b)) (log b ++ evs)) /\
     written_regs evs = [base + 0; base + 1; base + 2; base + 3]) /\
  (forall e, fst (Pca9685.set_channel_pwm ch duty b) = Raise e ->
             e = OSError /\ ~ responsive b) /\
  (forall e, fst (Pca9685.set_channel_digital ch high b) = Raise e ->
             e = OSError /\ ~ responsive b).
Proof.
  intros base. split; [|split; [|split]].
  - intros Hb. eexists. split.
    + rewrite set_channel_pwm_play, play_ok by assumption.
      replace (length (duty_encoding ch duty)) with 4%nat; [reflexivity|].
      unfold duty_encoding. now repeat case_match.
    + unfold duty_encoding. now repeat case_match.
  - intros Hb. eexists. split.
    + rewrite set_channel_digital_play, play_ok by assumption.
      replace (length (level_encoding ch high)) with 4%nat; [reflexivity|].
      now destruct high.
    + now destruct high.
  - intros e He. rewrite set_channel_pwm_play in He.
    now apply play_raises in He.
  - intros e He. rewrite set_channel_digital_play in He.
    now apply play_raises in He.
Qed.

End ChannelClaims.

Section ChannelExamples.
#[local] Existing Instance first_address.

Lemma set_channel_pwm_three_way_witness :
  exists b',
    Pca9685.set_channel_pwm 3 2000 quiet_bus = (Ok tt, b') /\
    log b' = map Done (channel_block 3 0 0 208 7).
Proof.
  destruct (set_channel_pwm_three_way 3 2000 quiet_bus
              ltac:(lia) ltac:(constructor))
    as (b' & Hrun & _ & _ & Hmid & _).
  exists b'. split; [exact Hrun|].
  apply Hmid. lia.
Defined.

(** C4 as stated fails: channel 16 and channel -1 are outside 0..15, and
    the operations raise nothing and write registers 70..73 and 2..5. *)
Lemma channel_out_of_range_is_written :
  Pca9685.set_channel_pwm 16 0 quiet_bus
  = (Ok tt, Bus [] [ Done (BusWrite 0x40 70 0); Done (BusWrite 0x40 71 0);
                     Done (BusWrite 0x40 72 0); Done (BusWrite 0x40 73 0x10) ])
  /\ Pca9685.set_channel_digital (-1) true quiet_bus
  = (Ok tt, Bus [] [ Done (BusWrite 0x40 2 0); Done (BusWrite 0x40 3 0x10);
                     Done (BusWrite 0x40 4 0); Done (BusWrite 0x40 5 0) ]).
Proof. split; reflexivity. Qed.

Lemma channel_ops_accept_any_channel_witness :
  exists evs,
    Pca9685.set_channel_pwm 16 0 quiet_bus = (Ok tt, Bus [] evs) /\
    written_regs evs = [70; 71; 72; 73].
Proof.
  destruct (channel_ops_accept_any_channel 16 0 false quiet_bus)
    as [Hpwm _].
  destruct (Hpwm ltac:(constructor)) as (evs & Hrun & Hregs).
  exists evs. split; [exact Hrun | exact Hregs].
Defined.

End ChannelExamples.

(** ** Arithmetic of the duty *)

Lemma Qle_bool_false (x y : Q) : Qle_bool x y = false -> (y < x)%Q.
Proof.
  intros H. apply Qnot_le_lt. intros Hle.
  apply Qle_bool_iff in Hle. congruence.
Qed.

(** Cutting the fraction off is monotone. *)
Lemma Qtrunc_le (x y : Q) : (x <= y)%Q -> Py.Qtrunc x <= Py.Qtrunc y.
Proof.
  intros Hxy. unfold Py.Qtrunc.
  destruct (Qle_bool 0 x) eqn:Hx, (Qle_bool 0 y) eqn:Hy.
  - now apply Qfloor_resp_le.
  - apply Qle_bool_iff in Hx. apply Qle_bool_false in Hy. lra.
  - apply Qle_bool_false in Hx. apply Qle_bool_iff in Hy.
    transitivity 0.
    + change 0 with (Qceiling 0). apply Qceiling_resp_le. lra.
    + change 0 with (Qfloor 0). now apply Qfloor_resp_le.
  - now apply Qceiling_resp_le.
Qed.

Lemma scale_le (x y : Q) : (x <= y -> x / 100 * 4095 <= y / 100 * 4095)%Q.
Proof.
  intros Hxy. unfold Qdiv.
  apply Qmult_le_compat_r; [|discriminate].
  apply Qmult_le_compat_r; [assumption|discriminate].
Qed.


Lemma Qtrunc_comp (x y : Q) : (x == y)%Q -> Py.Qtrunc x = Py.Qtrunc y.
Proof.
  intros Hxy. apply Z.le_antisymm; apply Qtrunc_le; rewrite Hxy; apply Qle_refl.
Qed.

Lemma Qle_bool_comp (a a' b b' : Q) :
  (a == a')%Q -> (b == b')%Q -> Qle_bool a b = Qle_bool a' b'.
Proof. intros Ha Hb. now rewrite Ha, Hb. Qed.

Lemma polarity_sign (m : Motor.t) :
  let s := if 0 <=? Motor.direction m then 1 else -1 in s = 1 \/ s = -1.
Proof. cbv zeta. case_match; auto. Qed.

Lemma trunc_div (a : Z) :
  0 <= a -> Py.Qtrunc (inject_Z a / inject_Z 100) = a / 100.
Proof.
  intros Ha. unfold Py.Qtrunc.
  assert (Hsign : Qle_bool 0 (inject_Z a / inject_Z 100) = true).
  { apply Qle_bool_iff. apply Qle_shift_div_l; [reflexivity|].
    change (0 * inject_Z 100)%Q with (inject_Z 0). now rewrite <- Zle_Qle. }
  rewrite Hsign. unfold Qfloor, Qdiv, Qmult, Qinv, inject_Z. simpl.
  now rewrite Z.mul_1_r.
Qed.






(** ** The motor *)

Section MotorClaims.
Context `{Wiring}.




End MotorClaims.

Section MotorExamples.
#[local] Existing Instance first_address.




End MotorExamples.

(** ** Loops whose body swallows every exception *)

Section Suppressed.
Context {A : Type} (f : A -> list xfer) (body : A -> M unit).
Hypothesis body_play : forall x b, body x b = play (f x) b.

(** The loop never raises, its log extends the log it started from, and
    the first transfer of every iteration is put on the wire, whatever
    happened to the iterations before it. *)
Lemma for_each_suppressed (xs : list A) (b : bus) :
  exists b' evs,
    for_each xs (fun x => try_except (body x) (fun _ => ret tt)) b
    = (Ok tt, b')
    /\ log b' = log b ++ evs
    /\ forall x t ts, In x xs -> f x = t :: ts -> attempted t evs.
Proof.
  revert b. induction xs as [|x xs IH]; intros b.
  - exists b, []. simpl. rewrite app_nil_r. repeat split. intros ? ? ? [].
  - simpl. unfold bind, try_except.
    assert (Hstep : exists b1 evs1,
               (let (r, b') := body x b in
                match r with
                | Ok a => (Ok a, b')
                | Raise _ => ret tt b'
                end) = (Ok tt, b1)
               /\ log b1 = log b ++ evs1
               /\ forall t ts, f x = t :: ts -> attempted t evs1).
    { rewrite body_play.
      destruct (f x) as [|t ts] eqn:Hfx.
      - exists b, []. simpl. rewrite app_nil_r. repeat split. discriminate.
      - destruct (play_first_attempted t ts b) as (evs1 & Hlog & Hatt).
        destruct (play (t :: ts) b) as [[[]|e] b1]; simpl in Hlog;
          exists b1, evs1; (split; [reflexivity|]); (split; [exact Hlog|]);
          intros t' ts' [= <- <-]; exact Hatt. }
    destruct Hstep as (b1 & evs1 & -> & Hlog1 & Hatt1).
    destruct (IH b1) as (b' & evs & Hrun & Hlog & Hatt).
    exists b', (evs1 ++ evs). split; [exact Hrun|]. split.
    + now rewrite Hlog, Hlog1, app_assoc.
    + intros y t ts [<- | Hy] Hfy; unfold attempted;
        setoid_rewrite in_app_iff.
      * destruct (Hatt1 t ts Hfy); auto.
      * destruct (Hatt y t ts Hy Hfy); auto.
Qed.

(** On a responsive bus every iteration goes through. *)
Lemma for_each_suppressed_ok (xs : list A) (b : bus) :
  responsive b ->
  for_each xs (fun x => try_except (body x) (fun _ => ret tt)) b
  = (Ok tt, Bus (drop (length (concat (map f xs))) (pending b))
                (log b ++ map Done (concat (map f xs)))).
Proof.
  revert b. induction xs as [|x xs IH]; intros b Hb; simpl.
  - rewrite app_nil_r, drop_0. now destruct b.
  - unfold bind, try_except. rewrite body_play, play_ok by assumption.
    rewrite IH by now apply responsive_drop. cbn [pending log].
    now rewrite drop_drop, length_app, map_app, app_assoc.
Qed.

End Suppressed.

(** ** The chassis *)

Section XDriveClaims.
Context `{Wiring}.

(** With four numeric powers the chassis command is one sequence of
    transfers. *)
Lemma setPower_play (self : XDrive.t) (bl fl br fr : pyobj)
    (cbl cfl cbr cfr : pyfloat) (b : bus) :
  Py.float bl = Ok cbl -> Py.float fl = Ok cfl ->
  Py.float br = Ok cbr -> Py.float fr = Ok cfr ->
  XDrive.setPower self bl fl br fr b
  = play (motor_transfers (XDrive.BackLeft self) cbl
          ++ motor_transfers (XDrive.FrontLeft self) cfl
          ++ motor_transfers (XDrive.BackRight self) cbr
          ++ motor_transfers (XDrive.FrontRight self) cfr) b.
Proof.
  intros Hbl Hfl Hbr Hfr.
  unfold XDrive.setPower. rewrite play_app.
  apply bind_ext; [now apply set_power_play | intros _ b1].
  rewrite play_app.
  apply bind_ext; [now apply set_power_play | intros _ b2].
  rewrite play_app.
  apply bind_ext; [now apply set_power_play | intros _ b3].
  now apply set_power_play.
Qed.


(** C8, as the code has it.  [cleanup] first asks [_get_lowlevel] for
    the helpers of [test.py], outside any [try]: on a host where they
    cannot be imported it raises [ImportError] and no channel is touched.
    With the helpers loaded it never raises, whatever the bus does.  It
    puts the zeroing of every one of the 16 channels on the wire, then the
    low level of the direction channels 2, 3, 12 and 13, each attempted
    whatever happened to the ones before; on a bus that acknowledges, what
    is written is the full-off encoding of channels 0..15 and then of
    channels 2, 3, 12, 13. *)
Theorem cleanup_raises_only_without_helpers (self : XDrive.t) (b : bus) :
  @XDrive.cleanup unavailable self b = (Raise ImportError, b)
  /\ fst (XDrive.cleanup self b) = Ok tt
  /\ (exists zeroing lowering,
        log (snd (XDrive.cleanup self b)) = log b ++ zeroing ++ lowering
        /\ (forall ch, In ch all_channels ->
              attempted (BusWrite PCA_ADDR (Pca9685.LED0_ON_L + 4 * ch + 0) 0)
                        zeroing)
        /\ (forall ch, In ch known_dir_channels ->
              attempted (BusWrite PCA_ADDR (Pca9685.LED0_ON_L + 4 * ch + 0) 0)
                        lowering))
  /\ (responsive b ->
      XDrive.cleanup self b
      = (Ok tt,
         Bus (drop 80 (pending b))
             (log b ++ map Done (concat (map full_off all_channels)
                             ++ concat (map full_off known_dir_channels))))).
Proof.
  assert (Hpwm : forall ch b0,
             Pca9685.set_channel_pwm ch 0 b0 = play (full_off ch) b0)
    by (intros ch b0; exact (set_channel_pwm_play ch 0 b0)).
  assert (Hdir : forall ch b0,
             Pca9685.set_channel_digital ch false b0 = play (full_off ch) b0)
    by (intros ch b0; exact (set_channel_digital_play ch false b0)).
  split; [reflexivity|].
  unfold XDrive.cleanup. rewrite get_lowlevel_loaded.
  fold all_channels. fold known_dir_channels.
  pose proof (for_each_suppressed full_off
                (fun ch => Pca9685.set_channel_pwm ch 0) Hpwm) as Hzero.
  pose proof (for_each_suppressed full_off
                (fun ch => Pca9685.set_channel_digital ch false) Hdir)
    as Hlower.
  pose proof (for_each_suppressed_ok full_off
                (fun ch => Pca9685.set_channel_pwm ch 0) Hpwm) as Hzero_ok.
  pose proof (for_each_suppressed_ok full_off
                (fun ch => Pca9685.set_channel_digital ch false) Hdir)
    as Hlower_ok.
  cbv beta in Hzero, Hlower, Hzero_ok, Hlower_ok.
  destruct (Hzero all_channels b)
    as (b1 & zeroing & Hrun1 & Hlog1 & Hatt1).
  destruct (Hlower known_dir_channels b1)
    as (b2 & lowering & Hrun2 & Hlog2 & Hatt2).
  split; [|split].
  - unfold bind. now rewrite Hrun1, Hrun2.
  - exists zeroing, lowering. split; [|split].
    + unfold bind. rewrite Hrun1, Hrun2. simpl.
      now rewrite Hlog2, Hlog1, app_assoc.
    + intros ch Hch. now apply (Hatt1 ch _ (tl (full_off ch))).
    + intros ch Hch. now apply (Hatt2 ch _ (tl (full_off ch))).
  - intros Hb. unfold bind.
    rewrite Hzero_ok by assumption.
    rewrite Hlower_ok by now apply responsive_drop.
    cbn [pending log]. rewrite drop_drop, map_app, app_assoc. reflexivity.
Qed.




End XDriveClaims.

Section XDriveExamples.
#[local] Existing Instance first_address.



(** C8 as stated fails: a chassis built with [initialize_hw=False] on a
    host where [test.py] cannot be imported exists, and its [cleanup]
    raises [ImportError]. *)
Lemma cleanup_without_helpers_raises :
  @XDrive.init unavailable false 1000 None quiet_bus
  = (Ok default_robot, quiet_bus)
  /\ @XDrive.cleanup unavailable default_robot quiet_bus
     = (Raise ImportError, quiet_bus).
Proof. split; reflexivity. Qed.


Lemma cleanup_raises_only_without_helpers_witness :
  XDrive.cleanup default_robot quiet_bus
  = (Ok tt, Bus [] (map Done (concat (map full_off all_channels)
                              ++ concat (map full_off known_dir_channels)))).
Proof.
  destruct (cleanup_raises_only_without_helpers default_robot quiet_bus)
    as (_ & _ & _ & Hok).
  exact (Hok ltac:(constructor)).
Defined.

End XDriveExamples.

(** ** The frequency *)

Lemma sleeping_bit (oldmode : Z) :
  Z.testbit (Z.lor (Z.lor (Z.land oldmode (Z.lnot Pca9685.RESTART))
                          Pca9685.SLEEP) Pca9685.AI) 4 = true.
Proof.
  rewrite !Z.lor_spec. change (Z.testbit Pca9685.SLEEP 4) with true.
  now rewrite orb_true_r.
Qed.

Lemma waking_bit (oldmode : Z) :
  Z.testbit (Z.lor (Z.land oldmode (Z.lnot Pca9685.SLEEP)) Pca9685.AI) 4
  = false.
Proof.
  rewrite Z.lor_spec, Z.land_spec.
  change (Z.testbit (Z.lnot Pca9685.SLEEP) 4) with false.
  change (Z.testbit Pca9685.AI 4) with false.
  now rewrite andb_false_r.
Qed.

Lemma restarting_bits (oldmode : Z) :
  let v := Z.land (Z.lor (Z.lor (Z.land oldmode (Z.lnot Pca9685.SLEEP))
                                Pca9685.RESTART) Pca9685.AI) 0xFF in
  Z.testbit v 4 = false /\ Z.testbit v 7 = true.
Proof.
  cbv zeta. rewrite !Z.land_spec, !Z.lor_spec, !Z.land_spec.
  change (Z.testbit (Z.lnot Pca9685.SLEEP) 4) with false.
  change (Z.testbit Pca9685.RESTART 4) with false.
  change (Z.testbit Pca9685.AI 4) with false.
  change (Z.testbit Pca9685.RESTART 7) with true.
  change (Z.testbit 0xFF 4) with true.
  change (Z.testbit 0xFF 7) with true.
  rewrite andb_false_r, orb_true_r. split; reflexivity.
Qed.

(** Inside the range the prescaler is not negative before the cut. *)
Lemma prescale_ratio (hz : Z) :
  1 <= hz <= 12207 ->
  (1 # 2 <= 25000000 / (4096 * inject_Z hz))%Q.
Proof.
  intros [Hlo Hhi].
  assert (H1 : (inject_Z 1 <= inject_Z hz)%Q) by now rewrite <- Zle_Qle.
  assert (H2 : (inject_Z hz <= inject_Z 12207)%Q) by now rewrite <- Zle_Qle.
  change (inject_Z 1) with 1%Q in H1.
  change (inject_Z 12207) with 12207%Q in H2.
  apply Qle_shift_div_l; lra.
Qed.

Lemma floor_half_nearest (x : Q) : nearest_integer x (Qfloor (x + 0.5)).
Proof.
  unfold nearest_integer. apply Qabs_Qle_condition.
  pose proof (Qfloor_le (x + 0.5)) as Hlo.
  pose proof (Qlt_floor (x + 0.5)) as Hhi.
  rewrite inject_Z_plus in Hhi. change (inject_Z 1) with 1%Q in Hhi.
  split; lra.
Qed.

Lemma asleep_read (a : bool) (addr reg : Z) (rest : list event) :
  prescale_only_asleep a (Done (BusRead addr reg) :: rest)
  = prescale_only_asleep a rest.
Proof. reflexivity. Qed.

Lemma asleep_read_failed (a : bool) (addr reg : Z) (rest : list event) :
  prescale_only_asleep a (Failed (BusRead addr reg) :: rest)
  = prescale_only_asleep a rest.
Proof. reflexivity. Qed.

Lemma asleep_slept (a : bool) (secs : Q) (rest : list event) :
  prescale_only_asleep a (Slept secs :: rest) = prescale_only_asleep a rest.
Proof. reflexivity. Qed.

Lemma asleep_mode1 (a : bool) (addr v : Z) (rest : list event) :
  prescale_only_asleep a (Done (BusWrite addr Pca9685.MODE1 v) :: rest)
  = prescale_only_asleep (Z.testbit v 4) rest.
Proof. reflexivity. Qed.

Lemma asleep_mode1_failed (a : bool) (addr v : Z) (rest : list event) :
  prescale_only_asleep a (Failed (BusWrite addr Pca9685.MODE1 v) :: rest)
  = prescale_only_asleep a rest.
Proof. reflexivity. Qed.

Lemma asleep_prescale (a : bool) (addr v : Z) (rest : list event) :
  prescale_only_asleep a (Done (BusWrite addr Pca9685.PRE_SCALE v) :: rest)
  = a && prescale_only_asleep a rest.
Proof. reflexivity. Qed.

Lemma asleep_prescale_failed (a : bool) (addr v : Z) (rest : list event) :
  prescale_only_asleep a (Failed (BusWrite addr Pca9685.PRE_SCALE v) :: rest)
  = a && prescale_only_asleep a rest.
Proof. reflexivity. Qed.

Ltac asleep_run :=
  repeat first
    [ rewrite asleep_read | rewrite asleep_read_failed | rewrite asleep_slept
    | rewrite asleep_mode1 | rewrite asleep_mode1_failed
    | rewrite asleep_prescale | rewrite asleep_prescale_failed
    | rewrite sleeping_bit ].

Section FrequencyClaims.
Context `{Wiring}.

Lemma prescale_in_range (hz : Z) :
  1 <= hz <= 12207 ->
  Pca9685.prescale_of hz
  = Ok (Qfloor (25000000 / (4096 * inject_Z hz) - 1 + 0.5)).
Proof.
  intros Hhz. pose proof (prescale_ratio hz Hhz) as Hratio.
  assert (Hpos : (1 <= inject_Z hz)%Q)
    by (change 1%Q with (inject_Z 1); rewrite <- Zle_Qle; lia).
  unfold Pca9685.prescale_of.
  rewrite float_of_int_exact by lia. unfold Py.of_int.
  cbn [Py.mul Py.div Py.and_then Py.sub Py.add Py.int].
  destruct (Qeq_bool (4096 * inject_Z hz) 0) eqn:Hz.
  - apply Qeq_bool_eq in Hz. lra.
  - cbn [Py.and_then Py.sub Py.add Py.int]. unfold Py.Qtrunc.
    destruct (Qle_bool 0 _) eqn:Hsign; [reflexivity|].
    apply Qle_bool_false in Hsign. lra.
Qed.

(** What [set_pwm_freq] does once the prescaler is computed, on a bus
    that acknowledges and reads [oldmode] from MODE1. *)
Lemma set_pwm_freq_ok (freq_hz prescale oldmode : Z) (b : bus) :
  Pca9685.prescale_of freq_hz = Ok prescale ->
  responsive b ->
  next_reply b = Ack oldmode ->
  Pca9685.set_pwm_freq freq_hz b
  = (Ok tt,
     Bus (drop 5 (pending b))
         (log b ++
          [ Done (BusRead PCA_ADDR Pca9685.MODE1);
            Done (BusWrite PCA_ADDR Pca9685.MODE1
                    (Z.lor (Z.lor (Z.land oldmode (Z.lnot Pca9685.RESTART))
                                  Pca9685.SLEEP) Pca9685.AI));
            Done (BusWrite PCA_ADDR Pca9685.PRE_SCALE prescale);
            Done (BusWrite PCA_ADDR Pca9685.MODE1
                    (Z.lor (Z.land oldmode (Z.lnot Pca9685.SLEEP))
                           Pca9685.AI));
            Slept 0.005;
            Done (BusWrite PCA_ADDR Pca9685.MODE1
                    (Z.land (Z.lor (Z.lor (Z.land oldmode
                                             (Z.lnot Pca9685.SLEEP))
                                          Pca9685.RESTART) Pca9685.AI)
                            0xFF)) ])).
Proof.
  intros Hp Hb Hold.
  unfold Pca9685.set_pwm_freq. unfold bind at 1. rewrite Hp.
  change (lift (Ok prescale) b) with (Ok prescale, b). cbv beta iota.
  unfold bind at 1. unfold read_byte_data. rewrite Hold.
  set (b1 := record _ b).
  assert (Hb1 : responsive b1) by now apply responsive_record.
  unfold bind at 1. rewrite write_ok by assumption.
  set (b2 := record _ b1).
  assert (Hb2 : responsive b2) by now apply responsive_record.
  unfold bind at 1. rewrite write_ok by assumption.
  set (b3 := record _ b2).
  assert (Hb3 : responsive b3) by now apply responsive_record.
  unfold bind at 1. rewrite write_ok by assumption.
  set (b4 := record _ b3).
  assert (Hb4 : responsive b4) by now apply responsive_record.
  unfold bind at 1. unfold sleep at 1.
  rewrite write_ok by exact Hb4.
  subst b4 b3 b2 b1. unfold record. cbn [pending log].
  rewrite <- !app_assoc. cbn [app].
  destruct (pending b) as [|? [|? [|? [|? [|? ?]]]]]; reflexivity.
Qed.

(** Whatever the bus does, a write of PRE_SCALE is put on the wire only
    after an acknowledged write of MODE1 with the SLEEP bit set. *)
Lemma set_pwm_freq_safe (freq_hz : Z) (b : bus) (asleep : bool) :
  exists evs,
    log (snd (Pca9685.set_pwm_freq freq_hz b)) = log b ++ evs
    /\ prescale_only_asleep asleep evs = true.
Proof.
  unfold Pca9685.set_pwm_freq. unfold bind at 1.
  destruct (Pca9685.prescale_of freq_hz) as [p|e].
  2:{ exists []. simpl. now rewrite app_nil_r. }
  change (lift (Ok p) b) with (Ok p, b). cbv beta iota.
  destruct b as [ps l].
  unfold bind, read_byte_data, write_byte_data, sleep, next_reply, record.
  cbn [pending log].
  destruct ps as [|[v1|] ps]; cbn [hd tl pending log snd].
  all: try (destruct ps as [|[v2|] ps]; cbn [hd tl pending log snd]).
  all: try (destruct ps as [|[v3|] ps]; cbn [hd tl pending log snd]).
  all: try (destruct ps as [|[v4|] ps]; cbn [hd tl pending log snd]).
  all: try (destruct ps as [|[v5|] ps]; cbn [hd tl pending log snd]).
  all: rewrite <- ?app_assoc; cbn [app]; eexists; (split; [reflexivity|]).
  all: asleep_run; reflexivity.
Qed.

(** C7.  On a bus that acknowledges, [set_pwm_freq] reads MODE1 and then,
    in this order: writes MODE1 with the SLEEP bit set, writes the
    prescaler to PRE_SCALE, writes MODE1 with the SLEEP bit cleared,
    sleeps 5 ms, and writes MODE1 with the RESTART bit set (SLEEP still
    cleared).  On every bus, also one that fails, a write of PRE_SCALE is
    only put on the wire while the device is asleep. *)
Theorem set_pwm_freq_sequence (freq_hz prescale oldmode : Z) (b : bus) :
  Pca9685.prescale_of freq_hz = Ok prescale ->
  responsive b ->
  next_reply b = Ack oldmode ->
  exists sleeping waking restarting secs,
    Pca9685.set_pwm_freq freq_hz b
    = (Ok tt,
       Bus (drop 5 (pending b))
           (log b ++
            [ Done (BusRead PCA_ADDR Pca9685.MODE1);
              Done (BusWrite PCA_ADDR Pca9685.MODE1 sleeping);
              Done (BusWrite PCA_ADDR Pca9685.PRE_SCALE prescale);
              Done (BusWrite PCA_ADDR Pca9685.MODE1 waking);
              Slept secs;
              Done (BusWrite PCA_ADDR Pca9685.MODE1 restarting) ]))
    /\ Z.testbit sleeping 4 = true
    /\ Z.testbit waking 4 = false
    /\ (5 # 1000 <= secs)%Q
    /\ Z.testbit restarting 4 = false
    /\ Z.testbit restarting 7 = true
    /\ forall b0 asleep,
         exists evs,
           log (snd (Pca9685.set_pwm_freq freq_hz b0)) = log b0 ++ evs
           /\ prescale_only_asleep asleep evs = true.
Proof.
  intros Hp Hb Hold.
  do 4 eexists.
  split; [exact (set_pwm_freq_ok freq_hz prescale oldmode b Hp Hb Hold)|].
  split; [apply sleeping_bit|]. split; [apply waking_bit|].
  split; [discriminate|].
  split; [apply (restarting_bits oldmode)|].
  split; [apply (restarting_bits oldmode)|].
  intros b0 asleep. apply set_pwm_freq_safe.
Qed.

(** C6, as the code has it.  For a frequency from 1 Hz to 12207 Hz the
    prescaler is int(25,000,000 / (4096 x hz) - 1 + 0.5), which is a
    nearest integer of 25,000,000 / (4096 x hz) - 1, and it is the value
    written to PRE_SCALE; at 1000 Hz it is 5.  (Above 12207 Hz the value
    before the cut is negative and the cut goes toward zero.) *)
Theorem prescale_is_nearest_in_range (hz : Z) (b : bus) :
  1 <= hz <= 12207 ->
  exists p,
    Pca9685.prescale_of hz = Ok p
    /\ nearest_integer (25000000 / (4096 * inject_Z hz) - 1) p
    /\ (responsive b ->
        In (Done (BusWrite PCA_ADDR Pca9685.PRE_SCALE p))
           (log (snd (Pca9685.set_pwm_freq hz b))))
    /\ Pca9685.prescale_of 1000 = Ok 5
    /\ (responsive b ->
        In (Done (BusWrite PCA_ADDR Pca9685.PRE_SCALE 5))
           (log (snd (Pca9685.set_pwm_freq 1000 b)))).
Proof.
  intros Hhz.
  assert (Hwritten : forall f p, Pca9685.prescale_of f = Ok p ->
            responsive b ->
            In (Done (BusWrite PCA_ADDR Pca9685.PRE_SCALE p))
               (log (snd (Pca9685.set_pwm_freq f b)))).
  { intros f p Hp Hb. destruct (responsive_next b Hb) as [oldmode Hold].
    rewrite (set_pwm_freq_ok f p oldmode) by assumption.
    cbn [snd log]. apply in_or_app. right. simpl. auto. }
  eexists. split; [now apply prescale_in_range|].
  split; [apply floor_half_nearest|].
  split; [apply Hwritten; now apply prescale_in_range|].
  split; [reflexivity|].
  now apply Hwritten.
Qed.

End FrequencyClaims.

Section FrequencyExamples.
#[local] Existing Instance first_address.

Lemma set_pwm_freq_sequence_witness :
  exists sleeping waking restarting secs,
    Pca9685.set_pwm_freq 1000 quiet_bus
    = (Ok tt,
       Bus [] [ Done (BusRead 0x40 0x00);
                Done (BusWrite 0x40 0x00 sleeping);
                Done (BusWrite 0x40 0xFE 5);
                Done (BusWrite 0x40 0x00 waking);
                Slept secs;
                Done (BusWrite 0x40 0x00 restarting) ])
    /\ Z.testbit sleeping 4 = true
    /\ Z.testbit waking 4 = false
    /\ (5 # 1000 <= secs)%Q
    /\ Z.testbit restarting 7 = true.
Proof.
  destruct (set_pwm_freq_sequence 1000 5 0 quiet_bus
              eq_refl ltac:(constructor) eq_refl)
    as (sleeping & waking & restarting & secs
        & Hrun & Hs & Hw & Hsecs & _ & Hr & _).
  exists sleeping, waking, restarting, secs. repeat split; assumption.
Defined.

(** C6 as stated fails: at 20000 Hz the value 25,000,000 / (4096 x
    20000) - 1 is about -0.695, whose nearest integer is -1, and the
    prescaler computed and written to PRE_SCALE is 0, in binary64
    arithmetic too. *)
Lemma prescale_at_20000_hz_is_not_nearest :
  Pca9685.prescale_of 20000 = Ok 0
  /\ ~ nearest_integer (25000000 / (4096 * 20000) - 1) 0
  /\ nearest_integer (25000000 / (4096 * 20000) - 1) (-1)
  /\ In (Done (BusWrite 0x40 0xFE 0))
        (log (snd (Pca9685.set_pwm_freq 20000 quiet_bus)))
  /\ Binary64.prescale_of 20000 = Some 0
  /\ Binary64.prescale_of 1000 = Some 5.
Proof.
  split; [reflexivity|]. split; [|split; [|split; [|split]]].
  - intros Hnear. vm_compute in Hnear. apply Hnear. reflexivity.
  - vm_compute. discriminate.
  - vm_compute. auto.
  - vm_compute. reflexivity.
  - vm_compute. reflexivity.
Qed.

Lemma prescale_is_nearest_witness :
  exists p,
    Pca9685.prescale_of 1000 = Ok p
    /\ nearest_integer (25000000 / (4096 * inject_Z 1000) - 1) p
    /\ In (Done (BusWrite 0x40 0xFE p))
          (log (snd (Pca9685.set_pwm_freq 1000 quiet_bus))).
Proof.
  destruct (prescale_is_nearest_in_range 1000 quiet_bus ltac:(lia))
    as (p & Hp & Hnear & Hin & _).
  exists p. split; [exact Hp|]. split; [exact Hnear|].
  apply Hin. constructor.
Defined.

End FrequencyExamples.

(** * Beyond the claims *)

(** ** Address discovery *)

Lemma find_pca_addr_run (candidates : list Z) (b : bus) :
  let n := unanswered (pending b) in
  match candidates !! n with
  | Some addr =>
      Pca9685.find_pca_addr candidates b
      = (Ok addr,
         Bus (drop (S n) (pending b))
             (log b ++ failed_probes (take n candidates)
                    ++ [Done (BusRead addr Pca9685.MODE1)]))
  | None =>
      Pca9685.find_pca_addr candidates b
      = (Raise RuntimeError,
         Bus (drop (length candidates) (pending b))
             (log b ++ failed_probes candidates))
  end.
Proof.
  revert b. induction candidates as [|a rest IH]; intros [ps l]; cbn [pending log].
  - cbn. now rewrite app_nil_r.
  - destruct ps as [|[v|] ps]; cbn [unanswered].
    + reflexivity.
    + reflexivity.
    + specialize (IH (Bus ps (l ++ [Failed (BusRead a Pca9685.MODE1)]))).
      cbn [pending log] in IH. cbn [lookup list_lookup].
      change ((a :: rest) !! S (unanswered ps)) with (rest !! unanswered ps).
      destruct (rest !! unanswered ps) as [addr|];
        cbn [Pca9685.find_pca_addr];
        unfold try_except, bind, read_byte_data, next_reply, record;
        cbn [pending log hd tl]; rewrite IH;
        cbn [take failed_probes map length]; rewrite <- ?app_assoc;
        reflexivity.
Qed.

(** X1.  [find_pca_addr] returns the first candidate, in the order given,
    whose probe of MODE1 is acknowledged, after one failed probe of each
    candidate before it; when no candidate answers it raises
    [RuntimeError] after one probe of each.  It never raises the bus
    error itself. *)
Theorem find_pca_addr_first_responder (candidates : list Z) (b : bus) :
  let n := unanswered (pending b) in
  (forall addr,
     candidates !! n = Some addr ->
     Pca9685.find_pca_addr candidates b
     = (Ok addr,
        Bus (drop (S n) (pending b))
            (log b ++ failed_probes (take n candidates)
                   ++ [Done (BusRead addr Pca9685.MODE1)])))
  /\ ((length candidates <= n)%nat ->
      Pca9685.find_pca_addr candidates b
      = (Raise RuntimeError,
         Bus (drop (length candidates) (pending b))
             (log b ++ failed_probes candidates))).
Proof.
  intros n. pose proof (find_pca_addr_run candidates b) as Hrun.
  fold n in Hrun. cbv zeta in Hrun. split.
  - intros addr Haddr. now rewrite Haddr in Hrun.
  - intros Hlen. apply lookup_ge_None_2 in Hlen. now rewrite Hlen in Hrun.
Qed.

Lemma find_pca_addr_first_responder_witness :
  Pca9685.find_pca_addr Pca9685.default_candidates (Bus [Nack; Nack; Ack 7] [])
  = (Ok 0x42, Bus [] [ Failed (BusRead 0x40 0); Failed (BusRead 0x41 0);
                       Done (BusRead 0x42 0) ]).
Proof.
  destruct (find_pca_addr_first_responder Pca9685.default_candidates
              (Bus [Nack; Nack; Ack 7] [])) as [Hfound _].
  exact (Hfound 0x42 eq_refl).
Defined.

Lemma power_of_two_bit (n i : Z) :
  0 <= n -> Z.testbit (2 ^ n) i = (n =? i).
Proof. intros Hn. apply Z.pow2_bits_eqb, Hn. Qed.

(** ** The mode registers *)

Section ModeDefaults.
Context `{Wiring}.

Lemma set_mode_defaults_ok (oldmode : Z) (b : bus) :
  responsive b ->
  next_reply b = Ack oldmode ->
  Pca9685.set_mode_defaults b
  = (Ok tt,
     Bus (drop 4 (pending b))
         (log b ++
          [ Done (BusRead PCA_ADDR Pca9685.MODE1);
            Done (BusWrite PCA_ADDR Pca9685.MODE1
                    (Z.lor (Z.land oldmode (Z.lnot Pca9685.RESTART))
                           Pca9685.SLEEP));
            Done (BusWrite PCA_ADDR Pca9685.MODE2 Pca9685.OUTDRV);
            Done (BusWrite PCA_ADDR Pca9685.MODE1
                    (Z.lor (Z.lor (Z.land oldmode (Z.lnot Pca9685.RESTART))
                                  Pca9685.SLEEP) Pca9685.AI)) ])).
Proof.
  intros Hb Hold.
  unfold Pca9685.set_mode_defaults.
  unfold bind at 1. unfold read_byte_data. rewrite Hold.
  set (b1 := record _ b).
  assert (Hb1 : responsive b1) by now apply responsive_record.
  unfold bind at 1. rewrite write_ok by assumption.
  set (b2 := record _ b1).
  assert (Hb2 : responsive b2) by now apply responsive_record.
  unfold bind at 1. rewrite write_ok by assumption.
  set (b3 := record _ b2).
  assert (Hb3 : responsive b3) by now apply responsive_record.
  rewrite write_ok by assumption.
  subst b3 b2 b1. unfold record. cbn [pending log].
  rewrite <- !app_assoc. cbn [app].
  destruct (pending b) as [|? [|? [|? [|? ?]]]]; reflexivity.
Qed.

(** X2.  On a bus that acknowledges, [set_mode_defaults] reads MODE1 and
    writes MODE1, MODE2 = OUTDRV, MODE1.  Both MODE1 values have the SLEEP
    bit set, the last one has AI set and RESTART cleared, and every other
    bit of the last value is the bit that was read: the device is left
    asleep with its other mode bits kept. *)
Theorem set_mode_defaults_leaves_asleep (oldmode : Z) (b : bus) :
  responsive b ->
  next_reply b = Ack oldmode ->
  exists first last,
    Pca9685.set_mode_defaults b
    = (Ok tt,
       Bus (drop 4 (pending b))
           (log b ++
            [ Done (BusRead PCA_ADDR Pca9685.MODE1);
              Done (BusWrite PCA_ADDR Pca9685.MODE1 first);
              Done (BusWrite PCA_ADDR Pca9685.MODE2 Pca9685.OUTDRV);
              Done (BusWrite PCA_ADDR Pca9685.MODE1 last) ]))
    /\ Z.testbit first 4 = true
    /\ Z.testbit last 4 = true
    /\ Z.testbit last 5 = true
    /\ Z.testbit last 7 = false
    /\ forall i, 0 <= i -> i <> 4 -> i <> 5 -> i <> 7 ->
         Z.testbit last i = Z.testbit oldmode i.
Proof.
  intros Hb Hold. do 2 eexists. split.
  { exact (set_mode_defaults_ok oldmode b Hb Hold). }
  rewrite !Z.lor_spec, !Z.land_spec, !Z.lnot_spec by lia.
  change (Z.testbit Pca9685.SLEEP 4) with true.
  change (Z.testbit Pca9685.AI 5) with true.
  change (Z.testbit Pca9685.RESTART 7) with true.
  change (Z.testbit Pca9685.SLEEP 7) with false.
  change (Z.testbit Pca9685.AI 7) with false.
  rewrite !orb_true_r, !andb_false_r.
  repeat split; try reflexivity.
  intros i Hi H4 H5 H7.
  rewrite !Z.lor_spec, !Z.land_spec, !Z.lnot_spec by lia.
  change Pca9685.RESTART with (2 ^ 7).
  change Pca9685.SLEEP with (2 ^ 4).
  change Pca9685.AI with (2 ^ 5).
  rewrite !power_of_two_bit by lia.
  destruct (Z.eqb_spec 7 i); [lia|].
  destruct (Z.eqb_spec 4 i); [lia|].
  destruct (Z.eqb_spec 5 i); [lia|].
  cbn. now rewrite andb_true_r, !orb_false_r.
Qed.
End ModeDefaults.

Lemma set_mode_defaults_leaves_asleep_witness :
  exists first last,
    @Pca9685.set_mode_defaults first_address quiet_bus
    = (Ok tt, Bus [] [ Done (BusRead 0x40 0); Done (BusWrite 0x40 0 first);
                       Done (BusWrite 0x40 1 4); Done (BusWrite 0x40 0 last) ])
    /\ Z.testbit last 4 = true /\ Z.testbit last 5 = true.
Proof.
  destruct (@set_mode_defaults_leaves_asleep first_address 0 quiet_bus
              ltac:(constructor) eq_refl)
    as (first & last & Hrun & _ & H4 & H5 & _).
  exists first, last. repeat split; assumption.
Defined.


(** ** The prescaler over the whole range of frequencies *)

Lemma Qtrunc_nonneg (y : Q) : (-1 < y)%Q -> 0 <= Py.Qtrunc y.
Proof.
  intros Hy. unfold Py.Qtrunc. destruct (Qle_bool 0 y) eqn:Hsign.
  - apply Qle_bool_iff in Hsign. change 0 with (Qfloor 0).
    now apply Qfloor_resp_le.
  - pose proof (Qceiling_lt y) as Hc.
    assert (Hz : (inject_Z (Qceiling y - 1) < inject_Z 0)%Q).
    { apply Qle_bool_false in Hsign. change (inject_Z 0) with 0%Q. lra. }
    rewrite <- Zlt_Qlt in Hz.
    pose proof (Qle_ceiling y) as Hle.
    assert (Hz' : (inject_Z (-1) < inject_Z (Qceiling y))%Q).
    { change (inject_Z (-1)) with (-1)%Q. lra. }
    rewrite <- Zlt_Qlt in Hz'. lia.
Qed.

Lemma ratio_antitone (d d' : Q) :
  (0 < d -> d <= d' -> 25000000 / d' <= 25000000 / d)%Q.
Proof.
  intros Hd Hdd'.
  apply Qle_shift_div_r; [lra|].
  set (q := (25000000 / d)%Q).
  assert (Hq : (q * d == 25000000)%Q) by (unfold q; field; lra).
  assert (Hq0 : (0 <= q)%Q) by (unfold q; apply Qle_shift_div_l; lra).
  nra.
Qed.

(** Rounding to a float does not go below what a float holds. *)
Lemma nearest_float_above (c z : Z) :
  0 <= c <= 2 ^ 53 -> c <= z -> c <= Py.nearest_float z.
Proof.
  intros Hc Hz. destruct (Z.le_gt_cases z (2 ^ 53)) as [Hsmall | Hbig].
  - rewrite nearest_float_exact; lia.
  - pose proof (nearest_float_large z ltac:(lia)). lia.
Qed.

Lemma nearest_float_zero (z : Z) : Py.nearest_float z = 0 -> z = 0.
Proof.
  intros Hv.
  destruct (Z.le_gt_cases (Z.log2 (Z.abs z) - 52) 0) as [Hsmall | Hbig].
  - unfold Py.nearest_float in Hv. apply Z.leb_le in Hsmall.
    now rewrite Hsmall in Hv.
  - destruct (nearest_float_bounds z ltac:(lia)) as (m & Hm & Hrange).
    rewrite Hv in Hm. symmetry in Hm.
    assert (Hp : 0 < 2 ^ (Z.log2 (Z.abs z) - 52))
      by (apply Z.pow_pos_nonneg; lia).
    assert (H52 : 0 < 2 ^ 52) by reflexivity.
    apply Z.mul_eq_0 in Hm. destruct Hm as [Hs | Hm]; [|nia].
    destruct z; [reflexivity | discriminate | discriminate].
Qed.

(** The prescaler of a frequency that converts, from the float it
    converts to. *)
Lemma prescale_formula (hz : Z) :
  Py.float_of_int hz = Ok (Py.of_int (Py.nearest_float hz)) ->
  hz <> 0 ->
  Pca9685.prescale_of hz
  = Ok (Py.Qtrunc
          (25000000 / (4096 * inject_Z (Py.nearest_float hz)) - 1 + 0.5)).
Proof.
  intros Hconv Hhz.
  unfold Pca9685.prescale_of. rewrite Hconv. unfold Py.of_int.
  cbn [Py.mul Py.div Py.and_then].
  destruct (Qeq_bool (4096 * inject_Z (Py.nearest_float hz)) 0) eqn:Hz;
    [|reflexivity].
  apply Qeq_bool_eq in Hz.
  assert (H0 : (inject_Z (Py.nearest_float hz) == inject_Z 0)%Q)
    by (change (inject_Z 0) with 0%Q; lra).
  unfold Qeq in H0. simpl in H0.
  exfalso. apply Hhz, nearest_float_zero. lia.
Qed.

Lemma prescale_antitone (hz hz' : Z) :
  1 <= hz <= hz' ->
  Py.Qtrunc (25000000 / (4096 * inject_Z hz') - 1 + 0.5)
  <= Py.Qtrunc (25000000 / (4096 * inject_Z hz) - 1 + 0.5).
Proof.
  intros [H1 Hle].
  assert (Q1 : (inject_Z 1 <= inject_Z hz)%Q) by now rewrite <- Zle_Qle.
  assert (Qle' : (inject_Z hz <= inject_Z hz')%Q) by now rewrite <- Zle_Qle.
  change (inject_Z 1) with 1%Q in Q1.
  apply Qtrunc_le.
  pose proof (ratio_antitone (4096 * inject_Z hz) (4096 * inject_Z hz')
                ltac:(lra) ltac:(lra)).
  lra.
Qed.

(** From 12208 Hz up the prescaler computed is 0. *)
Lemma prescale_zero (v : Z) :
  12208 <= v ->
  Py.Qtrunc (25000000 / (4096 * inject_Z v) - 1 + 0.5) = 0.
Proof.
  intros Hv. apply Z.le_antisymm.
  - etransitivity; [apply (prescale_antitone 12208 v); lia|].
    vm_compute. discriminate.
  - apply Qtrunc_nonneg.
    assert (Q1 : (inject_Z 1 <= inject_Z v)%Q) by (rewrite <- Zle_Qle; lia).
    change (inject_Z 1) with 1%Q in Q1.
    assert (Hr : (0 <= 25000000 / (4096 * inject_Z v))%Q)
      by (apply Qle_shift_div_l; lra).
    lra.
Qed.

(** X4.  From 24 Hz up the only error of the prescaler computation is the
    [OverflowError] of [float(freq_hz)]: it is raised from 2^1024 up and
    never below 2^1023.  When the computation returns, the prescaler is
    between 0 and 253, so it fits the one-byte register; from 12208 Hz up
    it is 0; and a higher frequency never gets a larger prescaler. *)
Theorem prescale_fits_the_register (hz : Z) :
  24 <= hz ->
  (2 ^ 1024 <= hz -> Pca9685.prescale_of hz = Raise OverflowError)
  /\ (hz < 2 ^ 1023 -> exists p, Pca9685.prescale_of hz = Ok p)
  /\ (forall e, Pca9685.prescale_of hz = Raise e ->
        e = OverflowError /\ 2 ^ 1023 <= hz)
  /\ forall p,
       Pca9685.prescale_of hz = Ok p ->
       0 <= p <= 253
       /\ (12208 <= hz -> p = 0)
       /\ forall hz' p',
            hz <= hz' -> Pca9685.prescale_of hz' = Ok p' -> p' <= p.
Proof.
  intros Hhz.
  assert (Hfits : forall f, 24 <= f -> f < 2 ^ 1023 ->
            Pca9685.prescale_of f
            = Ok (Py.Qtrunc
                    (25000000 / (4096 * inject_Z (Py.nearest_float f))
                     - 1 + 0.5))).
  { intros f Hf Hlt. apply prescale_formula; [|lia].
    apply float_of_int_fits. lia. }
  assert (Hret : forall f q, 24 <= f ->
            Pca9685.prescale_of f = Ok q ->
            q = Py.Qtrunc
                  (25000000 / (4096 * inject_Z (Py.nearest_float f))
                   - 1 + 0.5)).
  { intros f q Hf Hq.
    destruct (float_of_int_cases f) as [Hconv | Hover].
    - rewrite (prescale_formula f Hconv) in Hq by lia. congruence.
    - unfold Pca9685.prescale_of in Hq. rewrite Hover in Hq. discriminate. }
  assert (H53 : 12208 <= 2 ^ 53) by (vm_compute; discriminate).
  split; [|split; [|split]].
  - intros Hbig. unfold Pca9685.prescale_of.
    rewrite float_of_int_overflow by lia. reflexivity.
  - intros Hlt. eexists. now apply Hfits.
  - intros e He.
    destruct (Z.lt_ge_cases hz (2 ^ 1023)) as [Hlt | Hge].
    + rewrite Hfits in He by assumption. discriminate.
    + split; [|assumption].
      destruct (float_of_int_cases hz) as [Hconv | Hover].
      * rewrite (prescale_formula hz Hconv) in He by lia. discriminate.
      * unfold Pca9685.prescale_of in He. rewrite Hover in He.
        simpl in He. congruence.
  - intros p Hp. apply Hret in Hp; [|assumption]. subst p.
    pose proof (nearest_float_above 24 hz ltac:(lia) Hhz) as Hv.
    split; [split|split].
    + apply Qtrunc_nonneg.
      assert (Q1 : (inject_Z 1 <= inject_Z (Py.nearest_float hz))%Q)
        by (rewrite <- Zle_Qle; lia).
      change (inject_Z 1) with 1%Q in Q1.
      assert (Hr : (0 <= 25000000
                         / (4096 * inject_Z (Py.nearest_float hz)))%Q)
        by (apply Qle_shift_div_l; lra).
      lra.
    + etransitivity;
        [apply (prescale_antitone 24 (Py.nearest_float hz)); lia|].
      vm_compute. discriminate.
    + intros Hhigh. apply prescale_zero.
      apply nearest_float_above; lia.
    + intros hz' p' Hle Hp'. apply Hret in Hp'; [|lia]. subst p'.
      destruct (Z.le_gt_cases hz (2 ^ 53)) as [Hsmall | Hlarge].
      * rewrite (nearest_float_exact hz) by lia.
        apply prescale_antitone. split; [lia|].
        apply nearest_float_above; lia.
      * rewrite !prescale_zero; [lia | |];
          (etransitivity; [exact H53 | apply nearest_float_large; lia]).
Qed.

Lemma prescale_fits_the_register_witness :
  exists p, Pca9685.prescale_of 1000 = Ok p /\ 0 <= p <= 253.
Proof.
  destruct (prescale_fits_the_register 1000 ltac:(lia))
    as (_ & Hruns & _ & Hrange).
  destruct (Hruns ltac:(vm_compute; reflexivity)) as (p & Hp).
  exists p. split; [exact Hp | apply (Hrange p Hp)].
Defined.

(** ** Errors and reach of the operations *)

Section ErrorBehaviour.
Context `{Wiring}.

Lemma set_pwm_freq_raises (freq_hz p : Z) (b : bus) (e : exn) :
  Pca9685.prescale_of freq_hz = Ok p ->
  fst (Pca9685.set_pwm_freq freq_hz b) = Raise e -> e = OSError.
Proof.
  intros Hp. unfold Pca9685.set_pwm_freq. unfold bind at 1. rewrite Hp.
  change (lift (Ok p) b) with (Ok p, b). cbv beta iota.
  destruct b as [ps l].
  unfold bind, read_byte_data, write_byte_data, sleep, next_reply, record.
  cbn [pending log].
  destruct ps as [|[v1|] ps]; cbn [hd tl pending log fst].
  all: try (destruct ps as [|[v2|] ps]; cbn [hd tl pending log fst]).
  all: try (destruct ps as [|[v3|] ps]; cbn [hd tl pending log fst]).
  all: try (destruct ps as [|[v4|] ps]; cbn [hd tl pending log fst]).
  all: try (destruct ps as [|[v5|] ps]; cbn [hd tl pending log fst]).
  all: congruence.
Qed.

(** X3.  [set_pwm_freq(0)] raises [ZeroDivisionError], and a frequency
    of magnitude 2^1024 or more raises the [OverflowError] of
    [float(freq_hz)], both before the bus is used.  A frequency that is
    not zero and below 2^1023 in magnitude goes through on a bus that
    acknowledges.  Besides these two errors the only one possible is the
    bus error. *)
Theorem set_pwm_freq_errors (freq_hz : Z) (b : bus) :
  (freq_hz = 0 ->
   Pca9685.set_pwm_freq freq_hz b = (Raise ZeroDivisionError, b))
  /\ (2 ^ 1024 <= Z.abs freq_hz ->
      Pca9685.set_pwm_freq freq_hz b = (Raise OverflowError, b))
  /\ (freq_hz <> 0 -> Z.abs freq_hz < 2 ^ 1023 -> responsive b ->
      fst (Pca9685.set_pwm_freq freq_hz b) = Ok tt)
  /\ forall e, fst (Pca9685.set_pwm_freq freq_hz b) = Raise e ->
       (e = ZeroDivisionError /\ freq_hz = 0)
       \/ (e = OverflowError /\ 2 ^ 1023 <= Z.abs freq_hz)
       \/ (e = OSError /\ freq_hz <> 0 /\ ~ responsive b).
Proof.
  assert (Hover : Py.float_of_int freq_hz = Raise OverflowError ->
                  Pca9685.set_pwm_freq freq_hz b = (Raise OverflowError, b)).
  { intros Hconv. unfold Pca9685.set_pwm_freq, Pca9685.prescale_of.
    unfold bind at 1. now rewrite Hconv. }
  assert (Hok : forall p, Pca9685.prescale_of freq_hz = Ok p ->
                responsive b ->
                fst (Pca9685.set_pwm_freq freq_hz b) = Ok tt).
  { intros p Hp Hb. destruct (responsive_next b Hb) as [oldmode Hold].
    now rewrite (set_pwm_freq_ok freq_hz p oldmode b Hp Hb Hold). }
  split; [|split; [|split]].
  - intros ->. reflexivity.
  - intros Hbig. now apply Hover, float_of_int_overflow.
  - intros Hf Hlt Hb.
    apply (Hok _ (prescale_formula _ (float_of_int_fits _ Hlt) Hf) Hb).
  - intros e He. destruct (Z.eq_dec freq_hz 0) as [-> | Hf].
    + left. split; [|reflexivity].
      change (Raise ZeroDivisionError = Raise e :> result unit) in He.
      congruence.
    + right. destruct (float_of_int_cases freq_hz) as [Hconv | Hraise].
      * right. pose proof (prescale_formula _ Hconv Hf) as Hp.
        split; [|split; [assumption|]].
        -- exact (set_pwm_freq_raises freq_hz _ b e Hp He).
        -- intros Hb. rewrite (Hok _ Hp Hb) in He. discriminate.
      * left. rewrite (Hover Hraise) in He. simpl in He.
        split; [congruence|].
        destruct (Z.lt_ge_cases (Z.abs freq_hz) (2 ^ 1023)) as [Hlt | Hge];
          [|assumption].
        rewrite (float_of_int_fits _ Hlt) in Hraise. discriminate.
Qed.

(** The events a sequence of transfers leaves are its own transfers, at
    most one each. *)
Lemma play_events (xs : list xfer) (b : bus) :
  exists evs,
    log (snd (play xs b)) = log b ++ evs
    /\ Forall (fun e => exists x, In x xs /\ (e = Done x \/ e = Failed x)) evs
    /\ (length evs <= length xs)%nat.
Proof.
  revert b. induction xs as [|x xs IH]; intros b.
  - exists []. simpl. rewrite app_nil_r. repeat split; constructor.
  - assert (Hrest : forall b1 e, log b1 = log b ++ [e] ->
               (e = Done x \/ e = Failed x) ->
               exists evs, log (snd (play xs b1)) = log b ++ evs
                 /\ Forall (fun e => exists y, In y (x :: xs)
                                /\ (e = Done y \/ e = Failed y)) evs
                 /\ (length evs <= length (x :: xs))%nat).
    { intros b1 e Hlog He. destruct (IH b1) as (evs & Hl & Hall & Hlen).
      exists (e :: evs). split; [|split].
      - rewrite Hl, Hlog, <- app_assoc. reflexivity.
      - constructor; [exists x; split; [now left | exact He]|].
        eapply Forall_impl; [exact Hall|].
        intros e' (y & Hy & He'). exists y. split; [now right | exact He'].
      - simpl. lia. }
    assert (Hstop : forall e, (e = Done x \/ e = Failed x) ->
               exists evs, log b ++ [e] = log b ++ evs
                 /\ Forall (fun e => exists y, In y (x :: xs)
                                /\ (e = Done y \/ e = Failed y)) evs
                 /\ (length evs <= length (x :: xs))%nat).
    { intros e He. exists [e]. split; [reflexivity|]. split.
      - constructor; [|constructor]. exists x. split; [now left | exact He].
      - simpl. lia. }
    simpl. destruct x as [a r|a r w];
      unfold bind, read_byte_data, write_byte_data;
      destruct (next_reply b); cbn [snd log record].
    + apply (Hrest _ (Done (BusRead a r))); [reflexivity | now left].
    + apply Hstop. now right.
    + apply (Hrest _ (Done (BusWrite a r w))); [reflexivity | now left].
    + apply Hstop. now right.
Qed.


Lemma block_in_block (ch a b c d : Z) (x : xfer) :
  In x (channel_block ch a b c d) ->
  exists reg val, x = BusWrite PCA_ADDR reg val /\ in_block ch reg.
Proof.
  unfold channel_block, in_block. cbn [In].
  intros [<- | [<- | [<- | [<- | []]]]]; do 2 eexists;
    (split; [reflexivity | lia]).
Qed.

Lemma duty_encoding_in_block (ch duty : Z) (x : xfer) :
  In x (duty_encoding ch duty) ->
  exists reg val, x = BusWrite PCA_ADDR reg val /\ in_block ch reg.
Proof.
  unfold duty_encoding, full_off, full_on, on_off_pair.
  repeat case_match; apply block_in_block.
Qed.

(** X6.  Whatever the power and whatever the bus does, [set_power] puts
    at most eight transactions on the wire, all of them writes to the
    register block of its direction channel or of its PWM channel: it
    never reads and never touches another channel.  When both channels
    are in 0..15, every register written is one of the 64 channel
    registers 0x06..0x45: never MODE1, MODE2 or PRE_SCALE. *)
Theorem set_power_stays_on_its_channels
    (m : Motor.t) (power : pyobj) (b : bus) :
  exists evs,
    log (snd (Motor.set_power m power b)) = log b ++ evs
    /\ Forall (write_within [Motor.dir_ch m; Motor.pwm_ch m]) evs
    /\ (length evs <= 8)%nat
    /\ (0 <= Motor.dir_ch m <= 15 -> 0 <= Motor.pwm_ch m <= 15 ->
        forall addr reg val,
          attempted (BusWrite addr reg val) evs ->
          addr = PCA_ADDR
          /\ Pca9685.LED0_ON_L <= reg <= Pca9685.LED0_ON_L + 63
          /\ reg <> Pca9685.MODE1 /\ reg <> Pca9685.MODE2
          /\ reg <> Pca9685.PRE_SCALE).
Proof.
  assert (Hmine : forall cmd x, In x (motor_transfers m cmd) ->
            exists reg val, x = BusWrite PCA_ADDR reg val
              /\ exists ch, In ch [Motor.dir_ch m; Motor.pwm_ch m]
                            /\ in_block ch reg).
  { intros cmd x Hx. unfold motor_transfers in Hx.
    apply in_app_or in Hx. destruct Hx as [Hx | Hx].
    - assert (Hd : exists reg val, x = BusWrite PCA_ADDR reg val
                     /\ in_block (Motor.dir_ch m) reg).
      { unfold level_encoding, full_on, full_off in Hx.
        destruct (Command.forward m cmd); now apply block_in_block in Hx. }
      destruct Hd as (reg & val & -> & Hreg).
      exists reg, val. split; [reflexivity|].
      exists (Motor.dir_ch m). split; [now left | exact Hreg].
    - apply duty_encoding_in_block in Hx.
      destruct Hx as (reg & val & -> & Hreg).
      exists reg, val. split; [reflexivity|].
      exists (Motor.pwm_ch m). split; [right; now left | exact Hreg]. }
  assert (Hreach : forall evs,
            Forall (write_within [Motor.dir_ch m; Motor.pwm_ch m]) evs ->
            0 <= Motor.dir_ch m <= 15 -> 0 <= Motor.pwm_ch m <= 15 ->
            forall addr reg val,
              attempted (BusWrite addr reg val) evs ->
              addr = PCA_ADDR
              /\ Pca9685.LED0_ON_L <= reg <= Pca9685.LED0_ON_L + 63
              /\ reg <> Pca9685.MODE1 /\ reg <> Pca9685.MODE2
              /\ reg <> Pca9685.PRE_SCALE).
  { intros evs Hall Hdir Hpwm addr reg val Hatt.
    rewrite Forall_forall in Hall.
    assert (Hin : In (Done (BusWrite addr reg val)) evs
                  \/ In (Failed (BusWrite addr reg val)) evs) by exact Hatt.
    assert (Hw : exists e, In e evs
                   /\ (e = Done (BusWrite addr reg val)
                       \/ e = Failed (BusWrite addr reg val))).
    { destruct Hin as [Hin | Hin]; eexists; split; eauto. }
    destruct Hw as (e & He & Hshape).
    apply list_elem_of_In in He.
    destruct (Hall e He) as (reg' & val' & Hshape' & ch & Hch & Hblock).
    assert (Hsame : addr = PCA_ADDR /\ reg = reg').
    { destruct Hshape as [-> | ->], Hshape' as [Heq | Heq];
        inversion Heq; auto. }
    destruct Hsame as [-> ->].
    assert (Hrange : 0 <= ch <= 15).
    { cbn [In] in Hch. destruct Hch as [<- | [<- | []]]; assumption. }
    unfold in_block in Hblock.
    unfold Pca9685.LED0_ON_L, Pca9685.MODE1, Pca9685.MODE2,
      Pca9685.PRE_SCALE in *.
    repeat split; lia. }
  assert (Hnum : forall cmd, Py.float power = Ok cmd ->
            exists evs,
              log (snd (Motor.set_power m power b)) = log b ++ evs
              /\ Forall (write_within [Motor.dir_ch m; Motor.pwm_ch m]) evs
              /\ (length evs <= 8)%nat).
  { intros cmd Hcmd. rewrite (set_power_play m power cmd b Hcmd).
    fold (motor_transfers m cmd).
    destruct (play_events (motor_transfers m cmd) b)
      as (evs & Hlog & Hall & Hlen).
    exists evs. split; [exact Hlog|]. split.
    - eapply Forall_impl; [exact Hall|].
      intros e (x & Hx & He).
      destruct (Hmine cmd x Hx) as (reg & val & -> & Hch).
      exists reg, val. split; [exact He | exact Hch].
    - etransitivity; [exact Hlen|].
      unfold motor_transfers, level_encoding, duty_encoding.
      rewrite length_app. now repeat case_match. }
  assert (Hrun : exists evs,
            log (snd (Motor.set_power m power b)) = log b ++ evs
            /\ Forall (write_within [Motor.dir_ch m; Motor.pwm_ch m]) evs
            /\ (length evs <= 8)%nat).
  { destruct (Py.float power) as [cmd|e] eqn:Hconv.
    - now apply (Hnum cmd).
    - exists []. rewrite (set_power_rejects m power e b Hconv).
      cbn [snd length]. rewrite app_nil_r.
      repeat split; [constructor | lia]. }
  destruct Hrun as (evs & Hlog & Hall & Hlen).
  exists evs. split; [exact Hlog|]. split; [exact Hall|].
  split; [exact Hlen|]. now apply Hreach.
Qed.
End ErrorBehaviour.

Lemma set_pwm_freq_errors_witness :
  @Pca9685.set_pwm_freq first_address 0 quiet_bus
  = (Raise ZeroDivisionError, quiet_bus)
  /\ @Pca9685.set_pwm_freq first_address (10 ^ 400) quiet_bus
     = (Raise OverflowError, quiet_bus)
  /\ fst (@Pca9685.set_pwm_freq first_address 1000 quiet_bus) = Ok tt.
Proof.
  split; [|split].
  - destruct (@set_pwm_freq_errors first_address 0 quiet_bus) as [Hzero _].
    exact (Hzero eq_refl).
  - destruct (@set_pwm_freq_errors first_address (10 ^ 400) quiet_bus)
      as (_ & Hbig & _).
    exact (Hbig ltac:(vm_compute; discriminate)).
  - destruct (@set_pwm_freq_errors first_address 1000 quiet_bus)
      as (_ & _ & Hruns & _).
    exact (Hruns ltac:(discriminate) ltac:(vm_compute; reflexivity)
             ltac:(constructor)).
Defined.


Lemma set_power_stays_on_its_channels_witness :
  exists evs,
    log (snd (@Motor.set_power first_address (Motor.new 0 2 1) (PyInt 30)
                quiet_bus)) = evs
    /\ forall addr reg val,
         attempted (BusWrite addr reg val) evs -> addr = 0x40 /\ 6 <= reg <= 69.
Proof.
  destruct (@set_power_stays_on_its_channels first_address (Motor.new 0 2 1)
              (PyInt 30) quiet_bus) as (evs & Hlog & _ & _ & Hreach).
  exists evs. split; [exact Hlog|].
  intros addr reg val Hatt.
  destruct (Hreach ltac:(cbn; lia) ltac:(cbn; lia) addr reg val Hatt)
    as (Haddr & Hreg & _).
  split; [exact Haddr | exact Hreg].
Defined.

(** ** Symmetries of the motor command *)

(** The duty is a function of the magnitude, the cap and the deadband. *)
Lemma duty_same (m1 m2 : Motor.t) (c1 c2 : pyfloat) :
  Motor.max_percent m1 = Motor.max_percent m2 ->
  Motor.deadband m1 = Motor.deadband m2 ->
  same_float (Command.magnitude m1 c1) (Command.magnitude m2 c2) ->
  Command.duty m1 c1 = Command.duty m2 c2.
Proof.
  intros Hcap Hdead Hsame.
  unfold Command.duty, Command.in_deadband, Command.capped.
  rewrite Hcap, Hdead.
  destruct (Command.magnitude m1 c1) as [a| |],
           (Command.magnitude m2 c2) as [a'| |];
    cbn [same_float] in Hsame; try contradiction; try (subst; reflexivity).
  unfold Py.of_int. cbn [Py.le].
  rewrite (Qle_bool_comp a a' _ _ Hsame (Qeq_refl _)).
  destruct (Qle_bool a' _); [reflexivity|].
  apply Qtrunc_comp.
  rewrite (Qle_bool_comp _ _ a a' (Qeq_refl _) Hsame).
  destruct (Qle_bool _ a'); [reflexivity|]. now rewrite Hsame.
Qed.

Lemma forward_same (m1 m2 : Motor.t) (c1 c2 : pyfloat) :
  same_float (Command.effective m1 c1) (Command.effective m2 c2) ->
  Command.forward m1 c1 = Command.forward m2 c2.
Proof.
  unfold Command.forward.
  destruct (Command.effective m1 c1) as [a|s|],
           (Command.effective m2 c2) as [a'|s'|];
    cbn [same_float]; try contradiction; try (intros ->; reflexivity);
    try reflexivity.
  intros Hsame. unfold Py.ge, Py.of_int. cbn [Py.le].
  now apply Qle_bool_comp.
Qed.

Lemma magnitude_same (m1 m2 : Motor.t) (c1 c2 : pyfloat) :
  same_float (Command.effective m1 c1) (Command.effective m2 c2) ->
  same_float (Command.magnitude m1 c1) (Command.magnitude m2 c2).
Proof.
  unfold Command.magnitude.
  destruct (Command.effective m1 c1) as [a|s|],
           (Command.effective m2 c2) as [a'|s'|];
    cbn [same_float Py.abs]; try contradiction; try reflexivity.
  intros Hsame. now rewrite Hsame.
Qed.


Section Symmetries.
Context `{Wiring}.



(** X9.  A motor of negative polarity commanded a power does, on every
    bus, exactly what the same motor with a polarity that is not negative
    does when commanded the negated power. *)
Theorem polarity_is_negation
    (m1 m2 : Motor.t) (power power' : pyobj) (cmd : pyfloat) (b : bus) :
  Motor.pwm_ch m1 = Motor.pwm_ch m2 ->
  Motor.dir_ch m1 = Motor.dir_ch m2 ->
  Motor.max_percent m1 = Motor.max_percent m2 ->
  Motor.deadband m1 = Motor.deadband m2 ->
  Motor.direction m1 < 0 <= Motor.direction m2 ->
  Py.float power = Ok cmd ->
  Py.float power' = Ok (Py.neg cmd) ->
  Motor.set_power m1 power b = Motor.set_power m2 power' b.
Proof.
  intros Hpwm Hdir Hcap Hdead [Hneg Hpos] Hcmd Hcmd'.
  assert (Hsame : same_float (Command.effective m1 cmd)
                             (Command.effective m2 (Py.neg cmd))).
  { unfold Command.effective, Py.of_int.
    destruct (Z.leb_spec 0 (Motor.direction m1)); [lia|].
    destruct (Z.leb_spec 0 (Motor.direction m2)); [|lia].
    destruct cmd as [q|[]|]; cbn; try reflexivity.
    unfold Qeq. simpl. lia. }
  rewrite (set_power_play m1 power cmd b Hcmd).
  rewrite (set_power_play m2 power' (Py.neg cmd) b Hcmd').
  rewrite Hpwm, Hdir.
  rewrite (forward_same m1 m2 _ _ Hsame).
  rewrite (duty_same m1 m2 _ _ Hcap Hdead (magnitude_same _ _ _ _ Hsame)).
  reflexivity.
Qed.

End Symmetries.

Section SymmetryExamples.
#[local] Existing Instance first_address.


Lemma polarity_is_negation_witness :
  Motor.set_power (Motor.new 14 13 (-1)) (PyInt 30) quiet_bus
  = Motor.set_power (Motor.new 14 13 1) (PyInt (-30)) quiet_bus.
Proof.
  apply (polarity_is_negation (Motor.new 14 13 (-1)) (Motor.new 14 13 1)
           (PyInt 30) (PyInt (-30)) (Py.of_int 30) quiet_bus);
    try reflexivity.
  cbn. lia.
Defined.


End SymmetryExamples.

(** ** Duties and register images *)

Section Images.
Context `{Wiring}.

Lemma duty_encoding_clamp (ch duty : Z) :
  duty_encoding ch (Z.max 0 (Z.min 4095 duty)) = duty_encoding ch duty.
Proof.
  unfold duty_encoding.
  destruct (Z.leb_spec duty 0), (Z.leb_spec 4095 duty);
    destruct (Z.leb_spec (Z.max 0 (Z.min 4095 duty)) 0);
    destruct (Z.leb_spec 4095 (Z.max 0 (Z.min 4095 duty)));
    try lia; try reflexivity.
  now replace (Z.max 0 (Z.min 4095 duty)) with duty by lia.
Qed.

Lemma duty_encoding_separates (ch d1 d2 : Z) :
  0 <= d1 <= 4095 -> 0 <= d2 <= 4095 ->
  duty_encoding ch d1 = duty_encoding ch d2 -> d1 = d2.
Proof.
  intros H1 H2. unfold duty_encoding, full_off, full_on, on_off_pair,
    channel_block.
  assert (Hhi : forall d, 0 <= d <= 4095 -> 0 <= d / 256 < 16).
  { intros d Hd. split; [apply Z.div_pos; lia|].
    apply Z.div_lt_upper_bound; lia. }
  pose proof (Hhi d1 H1). pose proof (Hhi d2 H2).
  pose proof (Z.div_mod d1 256 ltac:(lia)).
  pose proof (Z.div_mod d2 256 ltac:(lia)).
  destruct (Z.leb_spec d1 0), (Z.leb_spec 4095 d1);
    destruct (Z.leb_spec d2 0), (Z.leb_spec 4095 d2);
    try lia; intros Heq; inversion Heq; lia.
Qed.

(** X10.  [set_channel_pwm] depends on the duty only through its clamp to
    0..4095, and on a bus that acknowledges two duties leave the same
    register image only when their clamps are equal: the encoding loses
    nothing of a 12-bit duty. *)
Theorem set_channel_pwm_clamps_and_separates (ch d1 d2 : Z) (b : bus) :
  Pca9685.set_channel_pwm ch d1 b
  = Pca9685.set_channel_pwm ch (Z.max 0 (Z.min 4095 d1)) b
  /\ (responsive b ->
      Pca9685.set_channel_pwm ch d1 b = Pca9685.set_channel_pwm ch d2 b ->
      Z.max 0 (Z.min 4095 d1) = Z.max 0 (Z.min 4095 d2)).
Proof.
  split.
  - now rewrite !set_channel_pwm_play, duty_encoding_clamp.
  - intros Hb. rewrite !set_channel_pwm_play, !play_ok by assumption.
    intros Heq. injection Heq as _ Hlog.
    apply app_inv_head in Hlog.
    apply (duty_encoding_separates ch); try lia.
    rewrite !duty_encoding_clamp.
    revert Hlog. generalize (duty_encoding ch d1), (duty_encoding ch d2).
    induction l as [|x xs IH]; intros [|y ys]; simpl; try discriminate;
      [reflexivity|].
    intros [= -> Hrest]. f_equal. now apply IH.
Qed.

End Images.

Lemma set_channel_pwm_clamps_and_separates_witness :
  @Pca9685.set_channel_pwm first_address 5 5000 quiet_bus
  = @Pca9685.set_channel_pwm first_address 5 4095 quiet_bus.
Proof.
  destruct (@set_channel_pwm_clamps_and_separates first_address
              5 5000 4095 quiet_bus) as [Hclamp _].
  exact Hclamp.
Defined.

(** ** The motor table of [test.py] *)

Section MotorTable.
Context `{Wiring}.

Lemma motor_set_percent_run (ch_pwm ch_dir percent : Z) (b : bus) :
  percent <> 0 ->
  (let percent := Z.max (-100) (Z.min 100 percent) in
   if percent =? 0 then Pca9685.set_channel_pwm ch_pwm 0
   else
     let forward := 0 <? percent in
     Pca9685.set_channel_digital ch_dir forward ;;
     scaled ← lift (Py.div (Py.of_int (Z.abs percent * 4095)) (Py.of_int 100));
     duty ← lift (Py.int scaled);
     Pca9685.set_channel_pwm ch_pwm duty) b
  = play (level_encoding ch_dir (0 <? percent)
          ++ duty_encoding ch_pwm (Z.min 100 (Z.abs percent) * 4095 / 100)) b.
Proof.
  intros Hp. cbv zeta.
  destruct (Z.eqb_spec (Z.max (-100) (Z.min 100 percent)) 0); [lia|].
  rewrite play_app. apply bind_ext.
  - replace (0 <? Z.max (-100) (Z.min 100 percent)) with (0 <? percent)
      by (destruct (Z.ltb_spec 0 percent), (Z.ltb_spec 0 (Z.max (-100) (Z.min 100 percent))); lia).
    apply set_channel_digital_play.
  - intros _ b'. unfold bind, Py.of_int. cbn [Py.div].
    change (Qeq_bool (inject_Z 100) 0) with false. cbn [lift ret Py.int].
    rewrite trunc_div by lia.
    replace (Z.abs (Z.max (-100) (Z.min 100 percent)))
      with (Z.min 100 (Z.abs percent)) by lia.
    apply set_channel_pwm_play.
Qed.

(** X11.  [motor_set_percent] raises [ValueError] for a motor that is not
    1..4 before the bus is used.  For a motor of the table, percent 0
    only writes duty 0 to the PWM channel, the direction channel is left
    alone; any other percent writes the level [percent > 0] to the
    direction channel and then the duty min(100, |percent|) x 4095 / 100
    with the fraction cut off. *)
Theorem motor_set_percent_behaviour (motor percent : Z) (b : bus) :
  (~ In motor [1; 2; 3; 4] ->
   Pca9685.motor_set_percent motor percent b = (Raise ValueError, b))
  /\ forall pwm dir,
       In (motor, (pwm, dir)) Pca9685.MOTORS ->
       (percent = 0 ->
        Pca9685.motor_set_percent motor percent b = play (full_off pwm) b)
       /\ (percent <> 0 ->
           Pca9685.motor_set_percent motor percent b
           = play (level_encoding dir (0 <? percent)
                   ++ duty_encoding pwm
                        (Z.min 100 (Z.abs percent) * 4095 / 100)) b).
Proof.
  split.
  - intros Hout. unfold Pca9685.motor_set_percent, Pca9685.motor_pins.
    cbn [Pca9685.MOTORS find fst snd].
    destruct (Z.eqb_spec 1 motor) as [<- | _];
      [exfalso; apply Hout; cbn; tauto|].
    destruct (Z.eqb_spec 2 motor) as [<- | _];
      [exfalso; apply Hout; cbn; tauto|].
    destruct (Z.eqb_spec 3 motor) as [<- | _];
      [exfalso; apply Hout; cbn; tauto|].
    destruct (Z.eqb_spec 4 motor) as [<- | _];
      [exfalso; apply Hout; cbn; tauto|].
    reflexivity.
  - intros pwm dir Hin. cbn in Hin.
    destruct Hin as [[= <- <- <-] | [[= <- <- <-] | [[= <- <- <-]
                    | [[= <- <- <-] | []]]]];
      (split;
       [ intros ->; exact (set_channel_pwm_play _ 0 b)
       | intros Hp; now apply motor_set_percent_run ]).
Qed.

(** X12.  [all_stop] of [test.py] is, on every bus, the full-off writes
    of the PWM channels 0, 1, 14 and 15 in that order: no direction
    channel is touched, and a failed transfer leaves the later motors
    running. *)
Theorem all_stop_zeroes_the_pwm_channels (b : bus) :
  Pca9685.all_stop b
  = play (full_off 0 ++ full_off 1 ++ full_off 14 ++ full_off 15) b.
Proof.
  unfold Pca9685.all_stop. cbn [map Pca9685.MOTORS fst for_each].
  rewrite play_app.
  apply bind_ext; [exact (set_channel_pwm_play 0 0 b) | intros _ b1].
  rewrite play_app.
  apply bind_ext; [exact (set_channel_pwm_play 1 0 b1) | intros _ b2].
  rewrite play_app.
  apply bind_ext; [exact (set_channel_pwm_play 14 0 b2) | intros _ b3].
  rewrite bind_unit_ret. exact (set_channel_pwm_play 15 0 b3).
Qed.

End MotorTable.

Lemma motor_set_percent_behaviour_witness :
  @Pca9685.motor_set_percent first_address 3 (-250) quiet_bus
  = play (@level_encoding first_address 12 false
          ++ @duty_encoding first_address 14 4095) quiet_bus.
Proof.
  destruct (@motor_set_percent_behaviour first_address 3 (-250) quiet_bus)
    as [_ Hknown].
  destruct (Hknown 14 12 ltac:(cbn; tauto)) as [_ Hrun].
  exact (Hrun ltac:(lia)).
Defined.

(** ** The chassis beyond the mix *)

Section Chassis.
Context `{Wiring}.

(** X13.  The mix of [drive] fails in two ways only, both before the
    bus is used: [TypeError] when an argument is [None], and
    [OverflowError] when an int too large for a float meets a float;
    otherwise [setPower] receives four numbers.  [None] for [x] or [y] is
    always a [TypeError]; an int of magnitude 2^1024 or more for one of
    [x] and [y] with a float for the other is an [OverflowError],
    whatever the heading correction; with numbers that a float holds
    exactly the mix does not fail. *)
Theorem drive_rejects_what_is_not_a_number
    (self : XDrive.t) (x y h : pyobj) (b : bus) :
  (XDrive.drive self x y h b = (Raise TypeError, b)
   \/ XDrive.drive self x y h b = (Raise OverflowError, b)
   \/ exists bl fl br fr,
        XDrive.drive self x y h b = XDrive.setPower self bl fl br fr b
        /\ bl <> PyNone /\ fl <> PyNone /\ br <> PyNone /\ fr <> PyNone)
  /\ (x = PyNone \/ y = PyNone ->
      XDrive.drive self x y h b = (Raise TypeError, b))
  /\ (exactly_held x -> exactly_held y -> h = PyNone ->
      XDrive.drive self x y h b = (Raise TypeError, b))
  /\ (forall z f,
        2 ^ 1024 <= Z.abs z ->
        (x = PyInt z /\ y = PyFloat f) \/ (x = PyFloat f /\ y = PyInt z) ->
        XDrive.drive self x y h b = (Raise OverflowError, b))
  /\ (exactly_held x -> exactly_held y -> exactly_held h ->
      exists bl fl br fr,
        XDrive.drive self x y h b = XDrive.setPower self bl fl br fr b
        /\ bl <> PyNone /\ fl <> PyNone /\ br <> PyNone /\ fr <> PyNone).
Proof.
  split; [|split; [|split; [|split]]].
  - destruct x as [x|x|], y as [y|y|], h as [h|h|];
      unfold XDrive.drive;
      repeat (cbn [Py.obj_sub Py.obj_add Py.and_then];
              match goal with
              | |- context [Py.float_of_int ?z] =>
                  destruct (float_of_int_cases z) as [Hc | Hc]; rewrite Hc;
                  clear Hc
              end);
      first [ left; reflexivity
            | right; left; reflexivity
            | right; right; do 4 eexists;
              (split; [reflexivity|]); repeat split; discriminate ].
  - intros [-> | ->]; [destruct y, h | destruct x, h]; reflexivity.
  - intros Hx Hy ->.
    destruct x as [x|x|], y as [y|y|]; try contradiction;
      unfold XDrive.drive; cbn [Py.obj_sub Py.obj_add Py.and_then];
      cbn [exactly_held] in Hx, Hy;
      rewrite ?float_of_int_exact by assumption; reflexivity.
  - intros z f Hz [[-> ->] | [-> ->]];
      unfold XDrive.drive; cbn [Py.obj_sub Py.obj_add];
      rewrite float_of_int_overflow by assumption; reflexivity.
  - intros Hx Hy Hh.
    destruct x as [x|x|], y as [y|y|], h as [h|h|]; try contradiction;
      unfold XDrive.drive; cbn [exactly_held] in Hx, Hy, Hh;
      repeat (cbn [Py.obj_sub Py.obj_add Py.and_then];
              match goal with
              | |- context [Py.float_of_int ?z] =>
                  rewrite (float_of_int_fits z) by lia
              end);
      do 4 eexists; (split; [reflexivity|]); repeat split; discriminate.
Qed.

Lemma stop_command (m : Motor.t) :
  0 <= Motor.deadband m ->
  motor_transfers m (Py.of_int 0) = stop_transfers m.
Proof.
  intros Hdead. unfold motor_transfers, stop_transfers.
  assert (Hfwd : Command.forward m (Py.of_int 0) = true).
  { unfold Command.forward, Command.effective.
    destruct (polarity_sign m) as [-> | ->]; reflexivity. }
  assert (Hin : Command.in_deadband m (Py.of_int 0) = true).
  { unfold Command.in_deadband, Command.magnitude, Command.effective,
      Py.of_int.
    cbn [Py.mul Py.abs Py.le]. apply Qle_bool_iff.
    assert (Hz : (Qabs (inject_Z 0 * inject_Z (if 0 <=? Motor.direction m
                                               then 1 else -1)) == 0)%Q)
      by (destruct (polarity_sign m) as [-> | ->]; reflexivity).
    rewrite Hz. change 0%Q with (inject_Z 0). now rewrite <- Zle_Qle. }
  unfold Command.duty. now rewrite Hfwd, Hin.
Qed.

(** X14.  [XDrive.all_stop] is [setPower(0, 0, 0, 0)] on every bus.
    When no deadband is negative it writes, motor after motor from
    BackLeft, the forward level on the direction channel and duty 0 on
    the PWM channel. *)
Theorem all_stop_is_the_zero_command (self : XDrive.t) (b : bus) :
  XDrive.all_stop self b
  = XDrive.setPower self (PyInt 0) (PyInt 0) (PyInt 0) (PyInt 0) b
  /\ (Forall (fun m => 0 <= Motor.deadband m) (XDrive._motors self) ->
      XDrive.all_stop self b
      = play (stop_transfers (XDrive.BackLeft self)
              ++ stop_transfers (XDrive.FrontLeft self)
              ++ stop_transfers (XDrive.BackRight self)
              ++ stop_transfers (XDrive.FrontRight self)) b).
Proof.
  assert (Hsame : XDrive.all_stop self b
     = XDrive.setPower self (PyInt 0) (PyInt 0) (PyInt 0) (PyInt 0) b).
  { unfold XDrive.all_stop, XDrive.setPower. cbn [XDrive._motors for_each].
    apply bind_ext; [reflexivity | intros _ b1].
    apply bind_ext; [reflexivity | intros _ b2].
    apply bind_ext; [reflexivity | intros _ b3].
    apply bind_unit_ret. }
  split; [exact Hsame|].
  intros Hdead. rewrite Hsame.
  rewrite (setPower_play self (PyInt 0) (PyInt 0) (PyInt 0) (PyInt 0)
             (Py.of_int 0) (Py.of_int 0) (Py.of_int 0) (Py.of_int 0) b
             eq_refl eq_refl eq_refl eq_refl).
  unfold XDrive._motors in Hdead.
  inversion Hdead as [|? ? H1 Hd1]; subst.
  inversion Hd1 as [|? ? H2 Hd2]; subst.
  inversion Hd2 as [|? ? H3 Hd3]; subst.
  inversion Hd3 as [|? ? H4 _]; subst.
  now rewrite !stop_command.
Qed.

(** X15.  The constructor binds BackLeft, FrontLeft, BackRight and
    FrontRight to the channel pairs (1, 3), (0, 2), (14, 13) and (15, 12)
    with cap 40 and deadband 2, whatever the overrides; a wheel gets the
    polarity of its override when there is one and +1, +1, -1, -1
    otherwise.  Without [initialize_hw] the bus is not used; with it, an
    error of [initialize] is the error of the constructor.  The eight
    channels are distinct and the direction channels are among those
    [cleanup] drives low. *)
Theorem init_wires_the_four_motors
    (pwm_frequency_hz : Z)
    (motor_directions : option (gmap string Z)) (b : bus) :
  let robot :=
    XDrive.Make
      (Motor.new 1 3 (polarity_of motor_directions "BackLeft" 1))
      (Motor.new 0 2 (polarity_of motor_directions "FrontLeft" 1))
      (Motor.new 14 13 (polarity_of motor_directions "BackRight" (-1)))
      (Motor.new 15 12 (polarity_of motor_directions "FrontRight" (-1))) in
  XDrive.init false pwm_frequency_hz motor_directions b = (Ok robot, b)
  /\ XDrive.init true pwm_frequency_hz motor_directions b
     = (Pca9685.initialize pwm_frequency_hz ;; ret robot) b
  /\ (forall e, fst (Pca9685.initialize pwm_frequency_hz b) = Raise e ->
        fst (XDrive.init true pwm_frequency_hz motor_directions b) = Raise e)
  /\ Forall (fun m => In (Motor.dir_ch m) known_dir_channels)
            (XDrive._motors robot)
  /\ NoDup (flat_map (fun m => [Motor.pwm_ch m; Motor.dir_ch m])
                     (XDrive._motors robot)).
Proof.
  intros robot.
  assert (Hpol : forall wheel default,
            XDrive.default_dirs !! wheel = Some default ->
            XDrive.polarities motor_directions !!! wheel
            = polarity_of motor_directions wheel default).
  { intros wheel default Hdefault.
    unfold XDrive.polarities, polarity_of. rewrite lookup_total_alt.
    destruct motor_directions as [overrides|].
    - rewrite lookup_union, Hdefault.
      now destruct (overrides !! wheel).
    - now rewrite Hdefault. }
  assert (Hrobot : XDrive.Make
      (Motor.new 1 3 (XDrive.polarities motor_directions !!! "BackLeft"%string))
      (Motor.new 0 2 (XDrive.polarities motor_directions !!! "FrontLeft"%string))
      (Motor.new 14 13
         (XDrive.polarities motor_directions !!! "BackRight"%string))
      (Motor.new 15 12
         (XDrive.polarities motor_directions !!! "FrontRight"%string))
      = robot).
  { unfold robot.
    now rewrite (Hpol "BackLeft"%string 1), (Hpol "FrontLeft"%string 1),
      (Hpol "BackRight"%string (-1)), (Hpol "FrontRight"%string (-1)). }
  assert (Htrue : XDrive.init true pwm_frequency_hz motor_directions b
                  = (Pca9685.initialize pwm_frequency_hz ;; ret robot) b).
  { unfold XDrive.init. cbv zeta. now rewrite Hrobot. }
  split; [|split; [exact Htrue | split; [|split]]].
  - unfold XDrive.init. cbv zeta. rewrite Hrobot. reflexivity.
  - intros e He. rewrite Htrue. unfold bind.
    destruct (Pca9685.initialize pwm_frequency_hz b) as [[[]|e'] b'];
      cbn in He |- *; congruence.
  - repeat constructor; cbn; tauto.
  - cbn. refine (bool_decide_unpack _ _). vm_compute. exact I.
Qed.
End Chassis.

Lemma drive_rejects_what_is_not_a_number_witness :
  @XDrive.drive first_address default_robot (PyInt 10) PyNone (PyInt 0)
                quiet_bus
  = (Raise TypeError, quiet_bus)
  /\ @XDrive.drive first_address default_robot
       (PyInt (10 ^ 400)) (PyFloat (FNum 1)) (PyInt 0) quiet_bus
     = (Raise OverflowError, quiet_bus)
  /\ exists bl fl br fr,
       @XDrive.drive first_address default_robot
         (PyInt 10) (PyFloat (FNum 1)) (PyInt 0) quiet_bus
       = @XDrive.setPower first_address default_robot bl fl br fr quiet_bus.
Proof.
  split; [|split].
  - destruct (@drive_rejects_what_is_not_a_number first_address default_robot
                (PyInt 10) PyNone (PyInt 0) quiet_bus) as (_ & Hnone & _).
    apply Hnone. right. reflexivity.
  - destruct (@drive_rejects_what_is_not_a_number first_address default_robot
                (PyInt (10 ^ 400)) (PyFloat (FNum 1)) (PyInt 0) quiet_bus)
      as (_ & _ & _ & Hbig & _).
    apply (Hbig (10 ^ 400) (FNum 1)); [vm_compute; discriminate|].
    left. split; reflexivity.
  - destruct (@drive_rejects_what_is_not_a_number first_address default_robot
                (PyInt 10) (PyFloat (FNum 1)) (PyInt 0) quiet_bus)
      as (_ & _ & _ & _ & Hheld).
    destruct (Hheld ltac:(vm_compute; discriminate) I
                ltac:(vm_compute; discriminate))
      as (bl & fl & br & fr & Hrun & _).
    now exists bl, fl, br, fr.
Defined.

Lemma all_stop_is_the_zero_command_witness :
  @XDrive.all_stop first_address default_robot quiet_bus
  = play (@stop_transfers first_address (Motor.new 1 3 1)
          ++ @stop_transfers first_address (Motor.new 0 2 1)
          ++ @stop_transfers first_address (Motor.new 14 13 (-1))
          ++ @stop_transfers first_address (Motor.new 15 12 (-1))) quiet_bus.
Proof.
  destruct (@all_stop_is_the_zero_command first_address default_robot
              quiet_bus) as [_ Hstop].
  apply Hstop. repeat constructor; cbn; lia.
Defined.

Lemma init_wires_the_four_motors_witness :
  fst (@XDrive.init first_address true 1000 None (Bus [Nack] []))
  = Raise OSError.
Proof.
  destruct (@init_wires_the_four_motors first_address 1000 None
              (Bus [Nack] [])) as (_ & _ & Hfail & _).
  apply Hfail. reflexivity.
Defined.

(** ** The percentage conversion *)

Lemma clamp_percentage (cmd : pyfloat) :
  exists r,
    Py.max (FNum 0) (Py.min (FNum 100) cmd) = FNum r
    /\ (0 <= r <= 100)%Q
    /\ (Py.le cmd (FNum 0) = true -> (r == 0)%Q)
    /\ (Py.le (FNum 100) cmd = true -> (r == 100)%Q)
    /\ (cmd = FNaN -> (r == 100)%Q).
Proof.
  destruct cmd as [q|[]|].
  - unfold Py.min. cbn [Py.lt Py.le].
    destruct (Qle_bool 100 q) eqn:Hhi; cbn [negb].
    + exists 100%Q. apply Qle_bool_iff in Hhi.
      split; [reflexivity|]. split; [lra|]. repeat split; try reflexivity.
      intros Hlo. apply Qle_bool_iff in Hlo. lra.
    + apply Qle_bool_false in Hhi. unfold Py.max. cbn [Py.lt].
      destruct (Qle_bool q 0) eqn:Hlo; cbn [negb].
      * exists 0%Q. apply Qle_bool_iff in Hlo.
        split; [reflexivity|]. split; [lra|].
        repeat split; try reflexivity; try discriminate.
      * exists q. apply Qle_bool_false in Hlo.
        split; [reflexivity|]. split; [lra|].
        repeat split; try discriminate.
  - exists 0%Q. split; [reflexivity|]. split; [lra|].
    repeat split; try reflexivity; discriminate.
  - exists 100%Q. split; [reflexivity|]. split; [lra|].
    repeat split; try reflexivity; discriminate.
  - exists 100%Q. split; [reflexivity|]. split; [lra|].
    repeat split; try reflexivity; discriminate.
Qed.

(** X16.  [percentage_to_12bit] fails in two ways only: [TypeError] on
    [None], and the [OverflowError] of [float()] on an int of magnitude
    2^1024 or more (never below 2^1023).  For every number that converts
    it returns a value in 0..4095: 0 for a percentage that is not
    positive, 4095 for one of at least 100 and for NaN. *)
Theorem percentage_to_12bit_range (percentage : pyobj) :
  (percentage = PyNone ->
   Motor.percentage_to_12bit percentage = Raise TypeError)
  /\ (forall z, percentage = PyInt z -> 2 ^ 1024 <= Z.abs z ->
        Motor.percentage_to_12bit percentage = Raise OverflowError)
  /\ (forall e, Motor.percentage_to_12bit percentage = Raise e ->
        (e = TypeError /\ percentage = PyNone)
        \/ (e = OverflowError
            /\ exists z, percentage = PyInt z /\ 2 ^ 1023 <= Z.abs z))
  /\ forall cmd,
       Py.float percentage = Ok cmd ->
       exists d,
         Motor.percentage_to_12bit percentage = Ok d
         /\ 0 <= d <= 4095
         /\ (Py.le cmd (FNum 0) = true -> d = 0)
         /\ (Py.le (FNum 100) cmd = true -> d = 4095)
         /\ (cmd = FNaN -> d = 4095).
Proof.
  assert (Hnum : forall cmd,
       Py.float percentage = Ok cmd ->
       exists d,
         Motor.percentage_to_12bit percentage = Ok d
         /\ 0 <= d <= 4095
         /\ (Py.le cmd (FNum 0) = true -> d = 0)
         /\ (Py.le (FNum 100) cmd = true -> d = 4095)
         /\ (cmd = FNaN -> d = 4095)).
  { intros cmd Hcmd.
    destruct (clamp_percentage cmd)
      as (r & Hr & [Hlo Hhi] & Hzero & Hfull & Hnan).
    exists (Py.Qtrunc (r / 100 * 4095)). split.
    { unfold Motor.percentage_to_12bit. rewrite Hcmd. cbn [Py.and_then].
      rewrite Hr. reflexivity. }
    assert (H0 : Py.Qtrunc (0 / 100 * 4095) = 0) by reflexivity.
    assert (H100 : Py.Qtrunc (100 / 100 * 4095) = 4095) by reflexivity.
    split; [split|split; [|split]].
    - rewrite <- H0. now apply Qtrunc_le, scale_le.
    - rewrite <- H100. now apply Qtrunc_le, scale_le.
    - intros H. rewrite <- H0. apply Qtrunc_comp. now rewrite (Hzero H).
    - intros H. rewrite <- H100. apply Qtrunc_comp. now rewrite (Hfull H).
    - intros H. rewrite <- H100. apply Qtrunc_comp. now rewrite (Hnan H). }
  split; [now intros ->|]. split; [|split; [|exact Hnum]].
  - intros z -> Hz. unfold Motor.percentage_to_12bit. cbn [Py.float].
    now rewrite float_of_int_overflow.
  - intros e He. destruct percentage as [z|f|].
    + right. destruct (float_of_int_cases z) as [Hconv | Hover].
      * destruct (Hnum _ Hconv) as (d & Hd & _). congruence.
      * unfold Motor.percentage_to_12bit in He. cbn [Py.float] in He.
        rewrite Hover in He. cbn [Py.and_then] in He.
        split; [congruence|]. exists z. split; [reflexivity|].
        destruct (Z.lt_ge_cases (Z.abs z) (2 ^ 1023)) as [Hlt | Hge];
          [|assumption].
        rewrite (float_of_int_fits _ Hlt) in Hover. discriminate.
    + destruct (Hnum f eq_refl) as (d & Hd & _). congruence.
    + left. cbn in He. split; congruence.
Qed.

Lemma percentage_to_12bit_range_witness :
  (exists d, Motor.percentage_to_12bit (PyInt 50) = Ok d /\ 0 <= d <= 4095)
  /\ Motor.percentage_to_12bit (PyInt (10 ^ 400)) = Raise OverflowError.
Proof.
  split.
  - destruct (percentage_to_12bit_range (PyInt 50)) as (_ & _ & _ & Hnum).
    destruct (Hnum (Py.of_int 50) eq_refl) as (d & Hd & Hrange & _).
    exists d. split; assumption.
  - destruct (percentage_to_12bit_range (PyInt (10 ^ 400)))
      as (_ & Hbig & _).
    exact (Hbig (10 ^ 400) eq_refl ltac:(vm_compute; discriminate)).
Defined.

(** ** Bringing the controller up *)

Lemma tl_drop {A} (n : nat) (l : list A) : tl (drop n l) = drop (S n) l.
Proof.
  revert l. induction n as [|n IH]; intros [|x l]; try reflexivity.
  apply IH.
Qed.

Lemma log_shape {A} (l e1 e2 z : list A) (a b c : A) :
  (((((l ++ e1) ++ e2) ++ z) ++ [a]) ++ [b]) ++ [c]
  = l ++ (e1 ++ e2) ++ z ++ [a; b; c].
Proof. rewrite <- !app_assoc. reflexivity. Qed.

Lemma read_ok (addr reg : Z) (b : bus) :
  responsive b ->
  exists v, read_byte_data addr reg b
            = (Ok v, record (Done (BusRead addr reg)) b).
Proof.
  intros Hb. destruct (responsive_next b Hb) as [v Hv].
  exists v. unfold read_byte_data. now rewrite Hv.
Qed.

(** A loop whose body is a sequence of transfers is the sequence of all
    of them. *)
Lemma for_each_play {A} (f : A -> list xfer) (body : A -> M unit)
    (xs : list A) (b : bus) :
  (forall x b', body x b' = play (f x) b') ->
  for_each xs body b = play (concat (map f xs)) b.
Proof.
  intros Hbody. revert b. induction xs as [|x xs IH]; intros b.
  - reflexivity.
  - cbn [for_each map concat]. rewrite play_app.
    apply bind_ext; [apply Hbody | intros _ b'; apply IH].
Qed.

Lemma asleep_after_mode1 (a : bool) (addr v : Z) (rest : list event) :
  asleep_after a (Done (BusWrite addr Pca9685.MODE1 v) :: rest)
  = asleep_after (Z.testbit v 4) rest.
Proof. reflexivity. Qed.

Section BringUp.
Context `{Wiring}.

(** X17.  On a bus that acknowledges, [initialize] with a frequency that
    is not zero goes through in 43 transactions: it writes MODE1, MODE2,
    MODE1, then MODE1, PRE_SCALE, MODE1, MODE1, with the prescaler written
    only while the device is asleep and the device awake at the end; then
    it writes full-off to the direction and PWM channels of the four
    motors of the table, sleeps 50 ms and reads MODE1 and PRE_SCALE. *)
Theorem initialize_brings_up_the_device (f_pwm_hz prescale : Z) (b : bus) :
  Pca9685.prescale_of f_pwm_hz = Ok prescale ->
  responsive b ->
  exists setup,
    Pca9685.initialize f_pwm_hz b
    = (Ok tt,
       Bus (drop 43 (pending b))
           (log b ++ setup ++ map Done table_off
            ++ [ Slept 0.05;
                 Done (BusRead PCA_ADDR Pca9685.MODE1);
                 Done (BusRead PCA_ADDR Pca9685.PRE_SCALE) ]))
    /\ written_regs setup
       = [ Pca9685.MODE1; Pca9685.MODE2; Pca9685.MODE1;
           Pca9685.MODE1; Pca9685.PRE_SCALE; Pca9685.MODE1; Pca9685.MODE1 ]
    /\ In (Done (BusWrite PCA_ADDR Pca9685.PRE_SCALE prescale)) setup
    /\ forall asleep,
         prescale_only_asleep asleep setup = true
         /\ asleep_after asleep setup = false.
Proof.
  intros Hp Hb.
  destruct (responsive_next b Hb) as [old1 Hold1].
  unfold Pca9685.initialize.
  unfold bind at 1. rewrite (set_mode_defaults_ok old1 b Hb Hold1).
  set (b1 := Bus (drop 4 (pending b)) _).
  assert (Hb1 : responsive b1) by now apply responsive_drop.
  destruct (responsive_next b1 Hb1) as [old2 Hold2].
  unfold bind at 1. rewrite (set_pwm_freq_ok f_pwm_hz prescale old2 b1 Hp Hb1 Hold2).
  set (b2 := Bus (drop 5 (pending b1)) _).
  assert (Hb2 : responsive b2) by now apply responsive_drop.
  unfold bind at 1.
  rewrite (for_each_play (fun m => full_off (snd m) ++ full_off (fst m))).
  2:{ intros m b'. rewrite play_app. apply bind_ext.
      - exact (set_channel_digital_play (snd m) false b').
      - intros _ b''. exact (set_channel_pwm_play (fst m) 0 b''). }
  rewrite play_ok by assumption.
  set (b3 := Bus (drop _ (pending b2)) _).
  assert (Hb3 : responsive b3) by now apply responsive_drop.
  unfold bind at 1. unfold sleep at 1.
  set (b4 := Bus (pending b3) _).
  assert (Hb4 : responsive b4) by exact Hb3.
  destruct (read_ok PCA_ADDR Pca9685.MODE1 b4 Hb4) as [v1 Hr1].
  unfold bind at 1. rewrite Hr1.
  destruct (read_ok PCA_ADDR Pca9685.PRE_SCALE _
              (responsive_record (Done (BusRead PCA_ADDR Pca9685.MODE1)) b4 Hb4))
    as [v2 Hr2].
  unfold bind. rewrite Hr2. unfold ret, record.
  subst b4 b3 b2 b1. cbn [pending log].
  change (concat (map (fun m : Z * Z => full_off (snd m) ++ full_off (fst m))
                      (map snd Pca9685.MOTORS))) with table_off.
  eexists. split.
  { f_equal. f_equal.
    - rewrite !tl_drop, !drop_drop. reflexivity.
    - apply log_shape. }
  split; [reflexivity|]. split; [cbn; tauto|].
  intros asleep. split.
  - cbn [app]. asleep_run.
    change (prescale_only_asleep ?a (Done (BusWrite PCA_ADDR Pca9685.MODE2 ?v) :: ?r))
      with (prescale_only_asleep a r).
    asleep_run. reflexivity.
  - cbn [app]. cbn [asleep_after].
    change (Pca9685.MODE1 =? Pca9685.MODE1) with true.
    change (Pca9685.MODE2 =? Pca9685.MODE1) with false.
    change (Pca9685.PRE_SCALE =? Pca9685.MODE1) with false.
    cbv iota. apply (restarting_bits old2).
Qed.

(** X18.  [initialize(0)] on a bus that acknowledges raises
    [ZeroDivisionError] after the mode defaults were written: the device
    is left asleep and no channel was written. *)
Theorem initialize_at_zero_hz_leaves_asleep (b : bus) :
  responsive b ->
  exists evs,
    Pca9685.initialize 0 b
    = (Raise ZeroDivisionError, Bus (drop 4 (pending b)) (log b ++ evs))
    /\ written_regs evs = [Pca9685.MODE1; Pca9685.MODE2; Pca9685.MODE1]
    /\ forall asleep, asleep_after asleep evs = true.
Proof.
  intros Hb. destruct (responsive_next b Hb) as [old Hold].
  unfold Pca9685.initialize.
  unfold bind at 1. rewrite (set_mode_defaults_ok old b Hb Hold).
  eexists. split; [reflexivity|]. split; [reflexivity|].
  intros asleep. cbn [asleep_after].
  change (Pca9685.MODE1 =? Pca9685.MODE1) with true.
  change (Pca9685.MODE2 =? Pca9685.MODE1) with false.
  cbv iota. apply sleeping_bit.
Qed.
End BringUp.


Lemma initialize_brings_up_the_device_witness :
  exists setup,
    @Pca9685.initialize first_address 1000 quiet_bus
    = (Ok tt,
       Bus [] (setup ++ map Done (@table_off first_address)
               ++ [ Slept 0.05; Done (BusRead 0x40 0);
                    Done (BusRead 0x40 0xFE) ]))
    /\ In (Done (BusWrite 0x40 0xFE 5)) setup.
Proof.
  destruct (@initialize_brings_up_the_device first_address 1000 5 quiet_bus
              eq_refl ltac:(constructor))
    as (setup & Hrun & _ & Hin & _).
  exists setup. split; [exact Hrun | exact Hin].
Defined.

Lemma initialize_at_zero_hz_leaves_asleep_witness :
  exists evs,
    @Pca9685.initialize first_address 0 quiet_bus
    = (Raise ZeroDivisionError, Bus [] evs)
    /\ asleep_after false evs = true.
Proof.
  destruct (@initialize_at_zero_hz_leaves_asleep first_address quiet_bus
              ltac:(constructor)) as (evs & Hrun & _ & Hasleep).
  exists evs. split; [exact Hrun | apply Hasleep].
Defined.

(** ** The scripts *)





Section Scripts.
Context `{Wiring}.









End Scripts.


(** A power that [float()] cannot convert stops either script at its
    first command, before anything is sent. *)
Lemma scripts_refuse_a_huge_power :
  @MotorTest.test_motor first_address (Motor.new 1 3 1) (10 ^ 400) 2 quiet_bus
  = (Raise ValueError, quiet_bus)
  /\ @SquareTest.drive_segment first_address default_robot
       (PyInt 0) (PyInt (10 ^ 400)) 2 quiet_bus
     = (Raise ValueError, quiet_bus)
  /\ @SquareTest.drive_segment first_address default_robot
       (PyFloat (FNum 0)) (PyInt (10 ^ 400)) 2 quiet_bus
     = (Raise OverflowError, quiet_bus).
Proof. repeat split; vm_compute; reflexivity. Qed.

